(** * expert_intelligence_toolbox.geographic: a shallow embedding

    The module [geographic.py] holds five functions, all of them thin
    orchestrations over external services (the Overpass boundary API, the
    Nominatim geocoder), third-party libraries (pandas, geopandas, shapely,
    geolib) and the file system.  The embedding keeps the control flow of
    each function (validation, loops, [try]/[except], dispatch on
    [output_geog], file modes) and takes what the services and libraries
    answer as fields of a record of services, so every result below holds
    for whatever they answer.  Two library functions are written out,
    because what the code does with them shows only then: how
    [pd.read_csv] turns the lines of a file into the rows of a frame, and
    the geohash of geolib. *)

From Stdlib Require Import Floats.
From Stdlib Require Import Ascii String.
From stdpp Require Import base strings list gmap sorting pretty.

Open Scope string_scope.
Open Scope list_scope.

(** ** Python values and control flow shared by the five functions *)
Module Py.

(** An exception that [except Exception as e] catches; [str(e)] is [msg]. *)
Record exn := Exn { msg : string }.

(** How a call ends: it returns a value or raises. *)
Inductive outcome (A : Type) : Type :=
| Returned (a : A)
| Raised (e : exn).
Arguments Returned {A} a.
Arguments Raised {A} e.

(** Code with effects on a world [W]: the world is threaded through, and
    what was done before an exception stays done. *)
Definition M (W A : Type) : Type := W → outcome A * W.

#[global] Instance M_ret {W} : MRet (M W) := λ A a w, (Returned a, w).
#[global] Instance M_bind {W} : MBind (M W) := λ A B k m w,
  match m w with
  | (Returned a, w') => k a w'
  | (Raised e, w') => (Raised e, w')
  end.

Definition raise {W A} (e : exn) : M W A := λ w, (Raised e, w).
(** [try: m except Exception as e: h e] *)
Definition try_except {W A} (m : M W A) (h : exn → M W A) : M W A :=
  λ w, match m w with
       | (Returned a, w') => (Returned a, w')
       | (Raised e, w') => h e w'
       end.
(** A call that may raise and touches nothing. *)
Definition lift {W A} (o : outcome A) : M W A := λ w, (o, w).

(** [s.split(sep)] for a one-character separator: never empty, the pieces
    between the occurrences of [sep]. *)
Fixpoint split (sep : ascii) (s : string) : list string :=
  match s with
  | EmptyString => [EmptyString]
  | String c s' =>
      if Ascii.eqb c sep then EmptyString :: split sep s'
      else match split sep s' with
           | [] => [String c EmptyString]
           | seg :: segs => String c seg :: segs
           end
  end.

(** [l[-1]] on a list of strings that is not empty. *)
Definition last_item (l : list string) : string := List.last l EmptyString.

(** [path.split(".")[-1] not in ["csv"]] *)
Definition bad_extension (path : string) : bool :=
  negb (String.eqb (last_item (split "." path)) "csv").

(** The characters a Python literal of the source holds and a string
    written here cannot: the line feed and the double quote. *)
Definition nl : string := String (ascii_of_nat 10) EmptyString.
Definition dq : string := String (ascii_of_nat 34) EmptyString.

(** A replacement field of an f-string, and [str(v)], for a value that is a
    string or [None]. *)
Definition fmt (v : option string) : string :=
  match v with Some s => s | None => "None" end.

(** An outcome without its value: how the call ended. *)
Definition forget {A} (o : outcome A) : outcome () :=
  match o with Returned _ => Returned () | Raised e => Raised e end.

(** [c in s] for a character [c]. *)
Fixpoint contains (c : ascii) (s : string) : bool :=
  match s with
  | EmptyString => false
  | String c' s' => Ascii.eqb c' c || contains c s'
  end.

(** [repr(s)], the way Python quotes a string in a message.  A character
    of a string is a code point below 256: the quote is the single one
    unless the string holds a single quote and no double one; the quote and
    the backslash get a backslash in front; tab, line feed and carriage
    return are written with their letter; what is not printable (the
    controls below 32 and from 127 to 159, the no-break space 160 and the
    soft hyphen 173) is written in two hexadecimal digits. *)
Definition hex_digit (n : nat) : ascii :=
  default "0"%char (String.get n "0123456789abcdef").

Definition escaped (quote c : ascii) : string :=
  let n := nat_of_ascii c in
  if Ascii.eqb c quote || Ascii.eqb c "\"%char then String "\" (String c EmptyString)
  else if Nat.eqb n 9 then "\t"
  else if Nat.eqb n 10 then "\n"
  else if Nat.eqb n 13 then "\r"
  else if Nat.ltb n 32 || (Nat.ltb 126 n && Nat.ltb n 161) || Nat.eqb n 173
  then String "\" (String "x" (String (hex_digit (n / 16))
                                      (String (hex_digit (n mod 16)) EmptyString)))
  else String c EmptyString.

Fixpoint escape (quote : ascii) (s : string) : string :=
  match s with
  | EmptyString => EmptyString
  | String c s' => escaped quote c +:+ escape quote s'
  end.

Definition repr (s : string) : string :=
  let quote := if contains "'" s && negb (contains (ascii_of_nat 34) s)
               then ascii_of_nat 34 else "'"%char in
  String quote (escape quote s) +:+ String quote EmptyString.

(** [str(e)] of the [FileNotFoundError] of a failed [open]. *)
Definition no_such_file (path : string) : exn :=
  Exn ("[Errno 2] No such file or directory: " +:+ repr path).

End Py.

(** ** The two geocoding scripts: [convert_string_to_coordinates] and
    [convert_coordinates_to_address] *)
Module Geocoding.
Import Py.

(** A [geopy.location.Location]: [str(loc)] is its address. *)
Record location := Location {
  address : string;
  latitude : float;
  longitude : float
}.

(** A CSV file by its lines, in the file's order: every line is the list
    of its fields, and the empty line is the empty list.  The quotes a
    writer puts around a field that needs them are no part of the field; a
    line that is one field of blanks and tabs is taken to be written
    without quotes. *)
Abbreviation csv_file := (list (list string)).

(** What a run does to the outside, in order. *)
Inductive event :=
| EvRead (path : string)                    (* an input file is opened and read *)
| EvWrite (path : string) (mode : string)   (* an output file is opened *)
| EvGeocode (query : string)                (* [geolocator.geocode(query)] *)
| EvReverse (query : string)                (* [geolocator.reverse(query)] *)
| EvPrintFrame (header row : list string)   (* [print(df)] *)
| EvPrintValues (row : list string)         (* [print(df.values)] *)
| EvPrint (text : string)
| EvSleep (seconds : nat).

(** The files by path, and what was done so far.  Every write is taken:
    a disk that refuses one is not modelled.  A path is the name of a file
    on that disk: pandas' reading of a path that is a URL, and its expansion
    of a leading [~], are not modelled. *)
Record world := World {
  fs : gmap string csv_file;
  trace : list event
}.

Definition log (e : event) : M world unit :=
  λ w, (Returned (), World (fs w) (trace w ++ [e])).

(** The geocoding service and the library functions whose answers the code
    only passes on.  The number given to [geocode] and [reverse] is the
    number of calls made before in the run, so the service may answer the
    same query differently at different times. *)
Record services := Services {
  geocode : nat → string → outcome (option location);
  reverse : nat → string → outcome (option location);
  series_to_string : list string → string;  (* [row.to_string(index=False)] *)
  float_repr : float → string;              (* a float as [to_csv] writes it *)
  point_wkt : float → float → string        (* [str(Point(x, y))] *)
}.

Definition extension_error : exn := Exn "The path must be in .csv or format.".

(** *** convert_string_to_coordinates *)

Definition coordinates_header : list string :=
  ["location_name"; "long"; "lat"; "wkt"; "address_exact"].

(** [pd.read_csv] with its defaults ([skip_blank_lines=True], the header
    on the first line it keeps, [on_bad_lines='error']).

    A line it skips: the empty line, and a line of blanks and tabs only.
    A line that holds one empty field (a pair of quotes) is a row. *)
Fixpoint blanks (s : string) : bool :=
  match s with
  | EmptyString => true
  | String c s' => (Ascii.eqb c " " || Ascii.eqb c (ascii_of_nat 9)) && blanks s'
  end.

Definition skipped_line (r : list string) : bool :=
  match r with
  | [] => true
  | [x] => negb (String.eqb x "") && blanks x
  | _ => false
  end.

(** [str(e)] of the [ParserError] for a line of [saw] fields where
    [expected] are the most a line may have. *)
Definition parser_error (expected line saw : nat) : exn :=
  Exn ("Error tokenizing data. C error: Expected " +:+ pretty expected
       +:+ " fields in line " +:+ pretty line +:+ ", saw " +:+ pretty saw +:+ nl).

(** The lines below the header, each with its number in the file: a line
    with more fields than [expected] stops the read, a shorter one gets
    empty fields (NaN) at its end. *)
Fixpoint data_rows (expected : nat) (lines : list (nat * list string)) : outcome csv_file :=
  match lines with
  | [] => Returned []
  | (line, r) :: rest =>
      if Nat.ltb expected (length r) then Raised (parser_error expected line (length r))
      else match data_rows expected rest with
           | Returned rows => Returned ((r ++ replicate (expected - length r) "") :: rows)
           | Raised e => Raised e
           end
  end.

(** The rows of the frame.  The first line kept is the header.  The first
    line below it is never too long: the fields it has more than the header
    are taken, on every line, from the front as the index, which is no
    column of the frame. *)
Definition read_frame (content : csv_file) : outcome csv_file :=
  match filter (λ l, skipped_line l.2 = false) (imap (λ i r, (Datatypes.S i, r)) content) with
  | [] => Raised (Exn "No columns to parse from file")
  | (_, header) :: lines =>
      let expected := match lines with
                      | [] => length header
                      | (_, first) :: _ => Nat.max (length header) (length first)
                      end in
      match data_rows expected lines with
      | Returned rows => Returned (drop (expected - length header) <$> rows)
      | Raised e => Raised e
      end
  end.

Definition parse_csv (path : string) : M world csv_file :=
  λ w, match fs w !! path with
       | None => (Raised (no_such_file path), w)
       | Some content => (read_frame content, w)
       end.

Definition read_csv (path : string) : M world csv_file :=
  log (EvRead path);; parse_csv path.

(** [df.to_csv(path, mode='w+' if first else 'a', header=first, index=False)]
    for a frame of one row. *)
Definition store_rows (path : string) (first : bool) (header row : list string)
  : M world unit :=
  λ w, let old := default [] (fs w !! path) in
       let new := if first then [header; row] else old ++ [row] in
       (Returned (), World (<[path := new]> (fs w)) (trace w)).

Definition to_csv (path : string) (first : bool) (header row : list string)
  : M world unit :=
  log (EvWrite path (if first then "w+" else "a"));;
  store_rows path first header row.

(** The body of the [try]: the call, then the attribute reads on its
    result, which raise [AttributeError] when the geocoder found nothing and
    returned [None]. *)
Definition geocoded_row (S : services) (i : nat) (name query : string)
  : M world (list string) :=
  log (EvGeocode query);;
  found ← lift (geocode S i query);
  match found with
  | None => raise (Exn "'NoneType' object has no attribute 'longitude'")
  | Some loc =>
      let wkt := point_wkt S (longitude loc) (latitude loc) in
      mret [name;
            float_repr S (latitude loc);
            float_repr S (latitude loc);
            wkt;
            address loc]
  end.

Definition failed_row (name : string) (e : exn) : list string :=
  [name; ""; ""; ""; msg e].

(** One turn of [for i in range(len(locations))]. *)
Definition coordinates_step (S : services) (path_to_output_csv append_str_to_input : string)
  (i : nat) (r : list string) : M world unit :=
  let name := series_to_string S r in
  let query := name +:+ ", " +:+ append_str_to_input in
  output_addresses ← try_except (geocoded_row S i name query)
                                (λ e, mret (failed_row name e));
  log (if Nat.eqb i 0 then EvPrintFrame coordinates_header output_addresses
       else EvPrintValues output_addresses);;
  to_csv path_to_output_csv (Nat.eqb i 0) coordinates_header output_addresses;;
  log (EvSleep 1).

Fixpoint coordinates_loop (S : services) (path_to_output_csv append_str_to_input : string)
  (i : nat) (locations : csv_file) : M world unit :=
  match locations with
  | [] => mret ()
  | r :: rest =>
      coordinates_step S path_to_output_csv append_str_to_input i r;;
      coordinates_loop S path_to_output_csv append_str_to_input (Datatypes.S i) rest
  end.

Definition convert_string_to_coordinates (S : services)
  (path_to_input_csv path_to_output_csv append_str_to_input : string)
  : M world unit :=
  if bad_extension path_to_input_csv then raise extension_error
  else
    locations ← read_csv path_to_input_csv;
    coordinates_loop S path_to_output_csv append_str_to_input 0 locations;;
    log (EvPrint "Program has finished running").

(** *** convert_coordinates_to_address *)

Definition address_header : list string :=
  ["location"; "lat"; "long"; "output_address"].

(** The dict a [csv.DictReader] yields for a row: the field names zipped
    with the row, [None] for the fields a short row lacks (what a long row
    has too many goes under the key [None], which nothing here reads). *)
Fixpoint dict_row (fieldnames row : list string) : list (string * option string) :=
  match fieldnames, row with
  | [], _ => []
  | k :: ks, [] => (k, None) :: dict_row ks []
  | k :: ks, v :: vs => (k, Some v) :: dict_row ks vs
  end.

(** [d[key]]: the last binding of [key] (a later duplicate field name
    overwrites an earlier one), [KeyError] when there is none. *)
Fixpoint dict_get (d : list (string * option string)) (key : string)
  : option (option string) :=
  match d with
  | [] => None
  | (k, v) :: d' =>
      match dict_get d' key with
      | Some v' => Some v'
      | None => if String.eqb k key then Some v else None
      end
  end.

Definition getitem (d : list (string * option string)) (key : string)
  : M world (option string) :=
  match dict_get d key with
  | Some v => mret v
  | None => raise (Exn ("'" +:+ key +:+ "'"))
  end.

(** A field as [csv.DictWriter] writes it: [None] becomes the empty field. *)
Definition field (v : option string) : string :=
  match v with Some s => s | None => "" end.

(** [str(address)] for what [geolocator.reverse] returned. *)
Definition str_location (a : option location) : string :=
  match a with Some loc => address loc | None => "None" end.

Definition writerow (path : string) (row : list string) : M world unit :=
  λ w, (Returned (),
        World (<[path := default [] (fs w !! path) ++ [row]]> (fs w)) (trace w)).

(** [for row in reader]: blank rows are skipped by the reader. *)
Fixpoint address_loop (S : services) (path_to_output_csv : string)
  (fieldnames : list string) (i : nat) (rows : csv_file) : M world unit :=
  match rows with
  | [] => mret ()
  | [] :: rest => address_loop S path_to_output_csv fieldnames i rest
  | r :: rest =>
      let row := dict_row fieldnames r in
      location ← getitem row "location";
      lat ← getitem row "lat";
      lon ← getitem row "long";
      let coordinates := fmt lat +:+ ", " +:+ fmt lon in
      address ← try_except
                  (log (EvReverse coordinates);;
                   a ← lift (reverse S i coordinates);
                   mret (str_location a))
                  (λ e, mret (msg e));
      writerow path_to_output_csv [field location; field lat; field lon; address];;
      address_loop S path_to_output_csv fieldnames (Datatypes.S i) rest
  end.

(** [open(path, 'r')] *)
Definition open_read (path : string) : M world unit :=
  λ w, match fs w !! path with
       | None => (Raised (no_such_file path), w)
       | Some _ => (Returned (), World (fs w) (trace w ++ [EvRead path]))
       end.

(** [open(path, 'w', newline='')]: the file is created, or emptied. *)
Definition open_write (path : string) : M world unit :=
  λ w, (Returned (), World (<[path := []]> (fs w)) (trace w ++ [EvWrite path "w"])).

(** What the reader finds in the input file when the loop first asks for a
    row: the field names and the rows below them. *)
Definition reader_rows (path : string) : M world (list string * csv_file) :=
  λ w, match fs w !! path with
       | Some (fieldnames :: rows) => (Returned (fieldnames, rows), w)
       | _ => (Returned ([], []), w)
       end.

Definition convert_coordinates_to_address (S : services)
  (path_to_input_csv path_to_output_csv : string) : M world unit :=
  if bad_extension path_to_input_csv then raise extension_error
  else
    open_read path_to_input_csv;;
    open_write path_to_output_csv;;
    writerow path_to_output_csv address_header;;
    '(fieldnames, rows) ← reader_rows path_to_input_csv;
    address_loop S path_to_output_csv fieldnames 0 rows;;
    log (EvPrint "Conversion complete.").

(** *** What a run writes and asks, row by row *)

(** The string sent to the geocoder for a row. *)
Definition row_query (S : services) (app : string) (r : list string) : string :=
  series_to_string S r +:+ ", " +:+ app.

(** The output row of the [i]-th input row [r]. *)
Definition output_row (S : services) (app : string) (i : nat) (r : list string) : list string :=
  let name := series_to_string S r in
  match geocode S i (row_query S app r) with
  | Returned (Some loc) =>
      [name; float_repr S (latitude loc); float_repr S (latitude loc);
       point_wkt S (longitude loc) (latitude loc); address loc]
  | Returned None => failed_row name (Exn "'NoneType' object has no attribute 'longitude'")
  | Raised e => failed_row name e
  end.

(** What one turn of the loop does to the outside. *)
Definition step_events (S : services) (pout app : string) (i : nat) (r : list string) : list event :=
  [EvGeocode (row_query S app r);
   (if Nat.eqb i 0 then EvPrintFrame coordinates_header (output_row S app i r)
    else EvPrintValues (output_row S app i r));
   EvWrite pout (if Nat.eqb i 0 then "w+" else "a");
   EvSleep 1].

(** The queries sent to [geocode] and to [reverse], and the modes the
    output file was opened in, read off a trace. *)
Definition geocode_queries (t : list event) : list string :=
  omap (λ e, match e with EvGeocode q => Some q | _ => None end) t.

Definition reverse_queries (t : list event) : list string :=
  omap (λ e, match e with EvReverse q => Some q | _ => None end) t.

Definition write_modes (t : list event) : list string :=
  omap (λ e, match e with EvWrite _ mode => Some mode | _ => None end) t.

(** [row[key]] of the dict the reader yields for [r], [None] included. *)
Definition row_value (fieldnames r : list string) (key : string) : option string :=
  default None (dict_get (dict_row fieldnames r) key).

(** The string sent to [reverse] for a row. *)
Definition coordinates_text (fieldnames r : list string) : string :=
  fmt (row_value fieldnames r "lat") +:+ ", " +:+ fmt (row_value fieldnames r "long").

Definition address_text (S : services) (fieldnames : list string) (i : nat)
  (r : list string) : string :=
  match reverse S i (coordinates_text fieldnames r) with
  | Returned a => str_location a
  | Raised e => msg e
  end.

(** The output row of [r], the [i]-th row that is not blank. *)
Definition address_row (S : services) (fieldnames : list string) (i : nat)
  (r : list string) : list string :=
  [field (row_value fieldnames r "location"); field (row_value fieldnames r "lat");
   field (row_value fieldnames r "long"); address_text S fieldnames i r].

Definition has_key (fieldnames r : list string) (key : string) : bool :=
  match dict_get (dict_row fieldnames r) key with Some _ => true | None => false end.

(** The rows the loop writes before it ends or a missing column stops it. *)
Fixpoint rows_written (S : services) (fieldnames : list string) (i : nat)
  (rows : csv_file) : csv_file :=
  match rows with
  | [] => []
  | r :: rest =>
      if bool_decide (r = []) then rows_written S fieldnames i rest
      else if has_key fieldnames r "location" && has_key fieldnames r "lat"
              && has_key fieldnames r "long"
      then address_row S fieldnames i r :: rows_written S fieldnames (Datatypes.S i) rest
      else []
  end.

(** The geocoder calls and the pauses of a trace, in order. *)
Definition calls_and_sleeps (t : list event) : list event :=
  omap (λ e, match e with
             | EvGeocode _ | EvReverse _ | EvSleep _ => Some e
             | _ => None
             end) t.

(** The pauses of a trace, in seconds. *)
Definition sleeps (t : list event) : list nat :=
  omap (λ e, match e with EvSleep n => Some n | _ => None end) t.

End Geocoding.

(** ** The geohash of geolib *)
Module Geolib.

(** [geolib.geohash.encode(lat, lon, precision)], as the library computes
    it: the cell of the point at latitude [lat] and longitude [lon], found
    by halving the longitude range from -180 to 180 and the latitude range
    from -90 to 90 in turn, longitude first, five halvings to a character.
    The coordinates are numbers (the library compares them as decimals,
    which is exact). *)
Definition base32 : string := "0123456789bcdefghjkmnpqrstuvwxyz".

Definition base32_char (index : nat) : string :=
  match String.get index base32 with
  | Some c => String c EmptyString
  | None => EmptyString
  end.

(** [while len(ghash) < precision]: one halving a turn, [5 * precision]
    turns in all. *)
Fixpoint encode_loop (turns : nat) (lat lon : float) (precision : nat)
  (index bit : nat) (even_bit : bool) (lat_min lat_max lon_min lon_max : float)
  (ghash : list string) : string :=
  match turns with
  | 0 => String.concat "" ghash
  | Datatypes.S turns =>
      if Nat.ltb (length ghash) precision then
        let '(index, lat_min, lat_max, lon_min, lon_max) :=
          if even_bit then
            let lon_mid := PrimFloat.div (PrimFloat.add lon_min lon_max) 2 in
            if PrimFloat.leb lon_mid lon
            then (index * 2 + 1, lat_min, lat_max, lon_mid, lon_max)
            else (index * 2, lat_min, lat_max, lon_min, lon_mid)
          else
            let lat_mid := PrimFloat.div (PrimFloat.add lat_min lat_max) 2 in
            if PrimFloat.leb lat_mid lat
            then (index * 2 + 1, lat_mid, lat_max, lon_min, lon_max)
            else (index * 2, lat_min, lat_mid, lon_min, lon_max) in
        let even_bit := negb even_bit in
        let bit := bit + 1 in
        if Nat.eqb bit 5
        then encode_loop turns lat lon precision 0 0 even_bit
                         lat_min lat_max lon_min lon_max (ghash ++ [base32_char index])
        else encode_loop turns lat lon precision index bit even_bit
                         lat_min lat_max lon_min lon_max ghash
      else String.concat "" ghash
  end.

Definition encode (lat lon : float) (precision : nat) : string :=
  encode_loop (5 * precision) lat lon precision 0 0 true (-90) 90 (-180) 180 [].

End Geolib.

(** ** The three boundary functions: [convert_string_to_boundary],
    [convert_string_to_uk_geog] and [convert_list_to_uk_geog] *)
Module UkGeog.
Import Py.

(** [drop_duplicates()]: the first occurrence of every row, in order. *)
Definition drop_duplicates {A} `{EqDecision A} (l : list A) : list A :=
  reverse (remove_dups (reverse l)).

(** The order pandas sorts group keys in. *)
Definition str_le (a b : string) : Prop := String.leb a b = true.
#[global] Instance str_le_dec a b : Decision (str_le a b).
Proof. unfold str_le. apply _. Defined.

(** The keys of [groupby(...)]: every key once, sorted. *)
Definition group_keys (keys : list string) : list string :=
  merge_sort str_le (remove_dups keys).

(** The Overpass query of the source's f-string; [indent] is the run of
    blanks that starts its lines (four in the two single-location functions,
    eight in the loop of [convert_list_to_uk_geog]). *)
Definition boundary_query (indent country location : string) : string :=
  nl +:+ indent +:+ "area[name=" +:+ dq +:+ country +:+ dq +:+ "];" +:+ nl +:+
  indent +:+ "(" +:+ nl +:+
  indent +:+ "relation[" +:+ dq +:+ "type" +:+ dq +:+ "=" +:+ dq +:+ "boundary" +:+ dq
         +:+ "][" +:+ dq +:+ "name" +:+ dq +:+ "=" +:+ dq +:+ location +:+ dq
         +:+ "](area);" +:+ nl +:+
  indent +:+ ");" +:+ nl +:+
  indent +:+ "(._;>;);" +:+ nl +:+
  indent +:+ "out body;" +:+ nl +:+
  indent.

(** An element of the query's JSON answer.  Only a node has coordinates;
    [tagged] says whether the record has a ['tags'] key. *)
Inductive element :=
| Node (id : Z) (lat lon : float) (tagged : bool)
| Way (id : Z) (tagged : bool)
| Relation (id : Z) (tagged : bool).

Definition has_tags (e : element) : bool :=
  match e with Node _ _ _ t | Way _ t | Relation _ t => t end.

(** A row of [coordinates_df] once it holds nodes only and has its
    [geohash] column. *)
Record node_row := NodeRow {
  nr_id : Z;
  nr_lat : float;
  nr_lon : float;
  nr_geohash : string
}.

(** A row of the lookup table, and the code and name columns read from it. *)
Record lookup_row := LookupRow {
  LSOA21CD : string; LSOA21NM : string;
  MSOA21CD : string; MSOA21NM : string;
  LAD22CD : string; LAD22NM : string
}.

(** A code and its name; [None] is pandas' NaN. *)
Abbreviation pair_row := (option string * option string)%type.

Definition crs : string := "epsg:4386".

(** The query of [convert_list_to_uk_geog] for a location. *)
Definition list_query (location : string) : string :=
  boundary_query "        " "United Kingdom" location.

Section Model.
Context {geometry : Type}.

(** A row of [polygons]: the group's key, its geometry, the first [type]
    and the count of [id] ([None] once these two columns are dropped). *)
Record polygon_row := PolygonRow {
  pg_geohash : string;
  pg_geometry : geometry;
  pg_type : option string;
  pg_id : option nat
}.

(** A row of the boundary file joined with the lookup table ([how='left']:
    a code the table lacks keeps its row, with NaN in the table's columns). *)
Record lsoa_row := LsoaRow {
  lr_code : string;
  lr_geometry : geometry;
  lr_lookup : option lookup_row
}.

(** A row of the spatial join: the LSOA row, and the polygon it meets with
    its position in [polygons] ([index_right]). *)
Record join_row := JoinRow {
  jr_left : lsoa_row;
  jr_index_right : nat;
  jr_right : polygon_row
}.

Inductive event :=
| EvQuery (query : string)              (* [overpass.query(query)] *)
| EvReadFile (path : string)            (* [gpd.read_file(path)] *)
| EvReadCsv (path : string)             (* [pd.read_csv(path, usecols=...)] *)
| EvPrint (text : string)
| EvPrintPolygons (full : bool) (polygons : list polygon_row).

(** The world of these functions is what they have done so far. *)
Abbreviation world := (list event).

Definition log (e : event) : M world unit := λ w, (Returned (), w ++ [e]).

(** The services and library functions.  [overpass_query n q] is the
    elements of the answer to the [n]-th query of the run. *)
Record services := Services {
  overpass_query : nat → string → outcome (list element);
  geohash_encode : float → float → nat → string;
                              (* [geolib.geohash.encode(lat, lon, precision)] *)
  crs_known : string → bool;                          (* pyproj knows the CRS *)
  point : float → float → geometry;                   (* [points_from_xy], per row *)
  unary_union : list geometry → geometry;             (* how [dissolve] merges a group *)
  convex_hull : geometry → geometry;
  to_crs : string → geometry → geometry;
  intersects : geometry → geometry → bool;
  read_boundary_file : string → outcome (list (string * geometry));
  read_lookup_table : string → outcome (list lookup_row);
  frame_without_nodes : exn;      (* what pandas raises on a frame with no node *)
  frame_of_frames : list pair_row → list pair_row → list pair_row → outcome unit
}.

Variable S : services.

(** *** From the elements to the polygons (the same lines in all three
    functions) *)

(** [[i for i in elements if 'tags' not in i.keys()]] *)
Definition filtered (elements : list element) : list element :=
  filter (λ e, has_tags e = false) elements.

(** [coordinates_df[coordinates_df['type'] == 'node']] with the [geohash]
    column: [geolib.geohash.encode(r["lon"], r["lat"], 3)]. *)
Definition node_rows (df : list element) : list node_row :=
  omap (λ e, match e with
             | Node id lat lon _ => Some (NodeRow id lat lon (geohash_encode S lon lat 3))
             | _ => None
             end) df.

(** The frame of no record has no column, so ['type'] is a [KeyError]; a
    frame with records and no node has no ['lon'] to hash. *)
Definition coordinates_frame (elements : list element) : outcome (list node_row) :=
  match filtered elements with
  | [] => Raised (Exn "'type'")
  | df => match node_rows df with
          | [] => Raised (frame_without_nodes S)
          | rows => Returned rows
          end
  end.

(** The rows of one group. *)
Definition group (key : string) (rows : list node_row) : list node_row :=
  filter (λ r, nr_geohash r = key) rows.

(** [gdf.dissolve(by="geohash", aggfunc={"type": "first", "id": "count"})]
    over the points of the rows. *)
Definition dissolve (rows : list node_row) : list polygon_row :=
  (λ key, let g := group key rows in
          PolygonRow key
                     (unary_union S ((λ r, point S (nr_lon r) (nr_lat r)) <$> g))
                     ((λ _, "node") <$> head g)
                     (Some (length g)))
  <$> group_keys (nr_geohash <$> rows).

(** [polygons["geometry"] = polygons["geometry"].convex_hull] *)
Definition hull (p : polygon_row) : polygon_row :=
  PolygonRow (pg_geohash p) (convex_hull S (pg_geometry p)) (pg_type p) (pg_id p).

(** The [GeoDataFrame] of the points in the CRS [crs], dissolved and
    hulled. *)
Definition cluster (rows : list node_row) : outcome (list polygon_row) :=
  if crs_known S crs then Returned (hull <$> dissolve rows)
  else Raised (Exn ("Invalid projection: " +:+ crs)).

(** *** convert_string_to_boundary *)

Inductive boundary :=
| Polygons (polygons : list polygon_row)
| Coordinates (coordinates_df : list node_row).

Definition query (n : nat) (q : string) : M world (list element) :=
  log (EvQuery q);; lift (overpass_query S n q).

Definition convert_string_to_boundary (country location : string)
  (return_geometry : bool) : M world boundary :=
  elements ← query 0 (boundary_query "    " country location);
  coordinates_df ← lift (coordinates_frame elements);
  polygons ← lift (cluster coordinates_df);
  if return_geometry then mret (Polygons polygons)
  else mret (Coordinates coordinates_df).

(** *** The tables of the two UK functions *)

(** [gpd.read_file(path)[['LSOA21CD', 'geometry']].reset_index(drop=True)] *)
Definition read_file (path : string) : M world (list (string * geometry)) :=
  log (EvReadFile path);; lift (read_boundary_file S path).

Definition read_csv (path : string) : M world (list lookup_row) :=
  log (EvReadCsv path);; lift (read_lookup_table S path).

(** [left.merge(lookup, left_on='LSOA21CD', right_on='LSOA21CD', how='left')] *)
Definition merge (boundary_file : list (string * geometry))
  (lookup : list lookup_row) : list lsoa_row :=
  boundary_file ≫= λ '(code, g),
    match filter (λ r, LSOA21CD r = code) lookup with
    | [] => [LsoaRow code g None]
    | found => (λ r, LsoaRow code g (Some r)) <$> found
    end.

(** [frame.to_crs('epsg:4386')] *)
Definition project {A} (geom : A → geometry) (set : A → geometry → A)
  (frame : list A) : outcome (list A) :=
  if crs_known S crs then Returned ((λ r, set r (to_crs S crs (geom r))) <$> frame)
  else Raised (Exn ("Invalid projection: " +:+ crs)).

(** [gpd.sjoin(left, polygons, how='inner', predicate='intersects')] *)
Definition sjoin (left : list lsoa_row) (polygons : list polygon_row) : list join_row :=
  left ≫= λ l,
    omap (λ '(i, p), if intersects S (lr_geometry l) (pg_geometry p)
                     then Some (JoinRow l i p) else None)
         (imap pair polygons).

Definition lsoa_pair (j : join_row) : pair_row :=
  (Some (lr_code (jr_left j)), LSOA21NM <$> lr_lookup (jr_left j)).
Definition msoa_pair (j : join_row) : pair_row :=
  (MSOA21CD <$> lr_lookup (jr_left j), MSOA21NM <$> lr_lookup (jr_left j)).
Definition la_pair (j : join_row) : pair_row :=
  (LAD22CD <$> lr_lookup (jr_left j), LAD22NM <$> lr_lookup (jr_left j)).

Definition unique_lsoa_codes (join_result : list join_row) : list pair_row :=
  drop_duplicates (lsoa_pair <$> join_result).
Definition unique_msoa_codes (join_result : list join_row) : list pair_row :=
  drop_duplicates (msoa_pair <$> join_result).
Definition unique_la_codes (join_result : list join_row) : list pair_row :=
  drop_duplicates (la_pair <$> join_result).

(** *** convert_string_to_uk_geog *)

(** What the function can return; Python's [None] is [None] here. *)
Inductive frame :=
| CodeFrame (code_column name_column : string) (rows : list pair_row)
| JoinFrame (rows : list join_row).

(** Lines 95 to 161: everything before the dispatch on [output_geog]. *)
Definition uk_geog_join (location lsoa_boundary_files_path lsoa_msoa_la_lookup_path : string)
  : M world (list join_row) :=
  elements ← query 0 (boundary_query "    " "United Kingdom" location);
  coordinates_df ← lift (coordinates_frame elements);
  polygons ← lift (cluster coordinates_df);
  let num_polygons := length polygons in
  log (EvPrint "Reading in LSOA boundary file... This will take a while...");;
  lsoa_boundary_file ← read_file lsoa_boundary_files_path;
  lsoa_msoa_la_lookup ← read_csv lsoa_msoa_la_lookup_path;
  let lsoa_boundary_file := merge lsoa_boundary_file lsoa_msoa_la_lookup in
  log (EvPrint ("There are " +:+ pretty num_polygons +:+ " polygons in the input location."));;
  log (EvPrintPolygons true polygons);;
  lsoa_boundary_file ← lift (project lr_geometry
                               (λ r g, LsoaRow (lr_code r) g (lr_lookup r))
                               lsoa_boundary_file);
  log (EvPrint "Performing spatial join...");;
  mret (sjoin lsoa_boundary_file polygons).

(** Lines 163 to 172.  The ['overview'] branch builds a frame, binds it to
    [output_df] and ends: the function falls off its end. *)
Definition uk_geog_dispatch (output_geog : string) (join_result : list join_row)
  : M world (option frame) :=
  if String.eqb output_geog "lsoa" then
    mret (Some (CodeFrame "LSOA21CD" "LSOA21NM" (unique_lsoa_codes join_result)))
  else if String.eqb output_geog "msoa" then
    mret (Some (CodeFrame "MSOA21CD" "MSOA21NM" (unique_msoa_codes join_result)))
  else if String.eqb output_geog "la" then
    mret (Some (CodeFrame "LAD22CD" "LAD22NM" (unique_la_codes join_result)))
  else if String.eqb output_geog "overview" then
    lift (frame_of_frames S (unique_lsoa_codes join_result)
                            (unique_msoa_codes join_result)
                            (unique_la_codes join_result));;
    mret None
  else if String.eqb output_geog "raw" then
    mret (Some (JoinFrame join_result))
  else mret None.

Definition convert_string_to_uk_geog
  (location lsoa_boundary_files_path lsoa_msoa_la_lookup_path output_geog : string)
  : M world (option frame) :=
  join_result ← uk_geog_join location lsoa_boundary_files_path lsoa_msoa_la_lookup_path;
  uk_geog_dispatch output_geog join_result.

(** *** convert_list_to_uk_geog *)

(** A row of the overview: the LA pair, then the MSOA and LSOA pairs merged
    to it on [input_location]. *)
Record overview_row := OverviewRow {
  ov_location : string;
  ov_la : pair_row;
  ov_msoa : pair_row;
  ov_lsoa : pair_row
}.

(** The five frames the loop accumulates into. *)
Record results := Results {
  all_results_unique_lsoa_codes_df : list (string * pair_row);
  all_results_unique_msoa_codes_df : list (string * pair_row);
  all_results_unique_la_codes_df : list (string * pair_row);
  all_results_overview_df : list overview_row;
  all_results_join_result : list (string * join_row)
}.

Definition no_results : results := Results [] [] [] [] [].

(** [pd.merge(left, right, on='input_location', how='left')] *)
Definition merge_on_location {A} (left : list (string * A))
  (right : list (string * pair_row)) : list (string * (A * pair_row)) :=
  left ≫= λ '(loc, a),
    match filter (λ r, r.1 = loc) right with
    | [] => [(loc, (a, (None, None)))]
    | found => (λ r, (loc, (a, r.2))) <$> found
    end.

Definition overview (la msoa lsoa : list (string * pair_row)) : list overview_row :=
  (λ '(loc, ((a, m), l)), OverviewRow loc a m l)
  <$> merge_on_location (merge_on_location la msoa) lsoa.

(** [polygons.drop(columns=["id", "type"]).reset_index()] *)
Definition drop_counts (p : polygon_row) : polygon_row :=
  PolygonRow (pg_geohash p) (pg_geometry p) None None.

(** Lines 287 to 306: one [if] after the other, each a [pd.concat] onto
    the frame of its option. *)
Definition accumulate (output_geog location : string)
  (join_result : list join_row) (acc : results) : results :=
  let unique_lsoa_codes_df := pair location <$> unique_lsoa_codes join_result in
  let unique_msoa_codes_df := pair location <$> unique_msoa_codes join_result in
  let unique_la_codes_df := pair location <$> unique_la_codes join_result in
  let join_result := pair location <$> join_result in
  let acc :=
    if String.eqb output_geog "lsoa" then
      Results (all_results_unique_lsoa_codes_df acc ++ unique_lsoa_codes_df)
              (all_results_unique_msoa_codes_df acc) (all_results_unique_la_codes_df acc)
              (all_results_overview_df acc) (all_results_join_result acc)
    else acc in
  let acc :=
    if String.eqb output_geog "msoa" then
      Results (all_results_unique_lsoa_codes_df acc)
              (all_results_unique_msoa_codes_df acc ++ unique_msoa_codes_df)
              (all_results_unique_la_codes_df acc)
              (all_results_overview_df acc) (all_results_join_result acc)
    else acc in
  let acc :=
    if String.eqb output_geog "la" then
      Results (all_results_unique_lsoa_codes_df acc) (all_results_unique_msoa_codes_df acc)
              (all_results_unique_la_codes_df acc ++ unique_la_codes_df)
              (all_results_overview_df acc) (all_results_join_result acc)
    else acc in
  let acc :=
    if String.eqb output_geog "overview" then
      Results (all_results_unique_lsoa_codes_df acc) (all_results_unique_msoa_codes_df acc)
              (all_results_unique_la_codes_df acc)
              (all_results_overview_df acc
                 ++ overview unique_la_codes_df unique_msoa_codes_df unique_lsoa_codes_df)
              (all_results_join_result acc)
    else acc in
  if String.eqb output_geog "raw" then
    Results (all_results_unique_lsoa_codes_df acc) (all_results_unique_msoa_codes_df acc)
            (all_results_unique_la_codes_df acc) (all_results_overview_df acc)
            (all_results_join_result acc ++ join_result)
  else acc.

(** The body of the [try], lines 240 to 306. *)
Definition try_location (output_geog location : string)
  (lsoa_boundary_file : list (string * geometry)) (lsoa_msoa_la_lookup : list lookup_row)
  (elements : list element) (acc : results) : M world results :=
  coordinates_df ← lift (coordinates_frame elements);
  polygons ← lift (cluster coordinates_df);
  let num_polygons := length polygons in
  let polygons := drop_counts <$> polygons in
  let lsoa_boundary_file_joined := merge lsoa_boundary_file lsoa_msoa_la_lookup in
  log (EvPrint ("There are " +:+ pretty num_polygons
                +:+ " polygons in the input location " +:+ " " +:+ location));;
  log (EvPrintPolygons false polygons);;
  log (EvPrint "Performing spatial join...");;
  let join_result := sjoin lsoa_boundary_file_joined polygons in
  mret (accumulate output_geog location join_result acc).

(** One turn of [for location in locations_list]: the query stands before
    the [try], the rest inside it. *)
Definition location_step (output_geog : string)
  (lsoa_boundary_file : list (string * geometry)) (lsoa_msoa_la_lookup : list lookup_row)
  (n : nat) (location : string) (acc : results) : M world results :=
  elements ← query n (boundary_query "        " "United Kingdom" location);
  try_except
    (try_location output_geog location lsoa_boundary_file lsoa_msoa_la_lookup elements acc)
    (λ _, log (EvPrint ("Error. Likely no polygons found for " +:+ location));;
          mret acc).

Fixpoint locations_loop (output_geog : string)
  (lsoa_boundary_file : list (string * geometry)) (lsoa_msoa_la_lookup : list lookup_row)
  (n : nat) (locations_list : list string) (acc : results) : M world results :=
  match locations_list with
  | [] => mret acc
  | location :: rest =>
      acc ← location_step output_geog lsoa_boundary_file lsoa_msoa_la_lookup n location acc;
      locations_loop output_geog lsoa_boundary_file lsoa_msoa_la_lookup
                     (Datatypes.S n) rest acc
  end.

Inductive list_frame :=
| LocatedCodes (code_column name_column : string) (rows : list (string * pair_row))
| LocatedOverview (rows : list overview_row)
| LocatedJoin (rows : list (string * join_row)).

(** Lines 312 to 321. *)
Definition list_dispatch (output_geog : string) (acc : results) : option list_frame :=
  if String.eqb output_geog "lsoa" then
    Some (LocatedCodes "LSOA21CD" "LSOA21NM" (all_results_unique_lsoa_codes_df acc))
  else if String.eqb output_geog "msoa" then
    Some (LocatedCodes "MSOA21CD" "MSOA21NM" (all_results_unique_msoa_codes_df acc))
  else if String.eqb output_geog "la" then
    Some (LocatedCodes "LAD22CD" "LAD22NM" (all_results_unique_la_codes_df acc))
  else if String.eqb output_geog "overview" then
    Some (LocatedOverview (all_results_overview_df acc))
  else if String.eqb output_geog "raw" then
    Some (LocatedJoin (all_results_join_result acc))
  else None.

Definition convert_list_to_uk_geog (locations_list : list string)
  (lsoa_boundary_files_path lsoa_msoa_la_lookup_path output_geog : string)
  : M world (option list_frame) :=
  log (EvPrint "Reading in LSOA boundary file... This will take a while...");;
  lsoa_boundary_file ← read_file lsoa_boundary_files_path;
  lsoa_boundary_file ← lift (project snd (λ r g, (r.1, g)) lsoa_boundary_file);
  lsoa_msoa_la_lookup ← read_csv lsoa_msoa_la_lookup_path;
  acc ← locations_loop output_geog lsoa_boundary_file lsoa_msoa_la_lookup
                       0 locations_list no_results;
  mret (list_dispatch output_geog acc).

(** The untagged nodes of an answer, as rows, in the answer's order. *)
Definition untagged_nodes (elements : list element) : list node_row :=
  omap (λ e, match e with
             | Node id lat lon false => Some (NodeRow id lat lon (geohash_encode S lon lat 3))
             | _ => None
             end) elements.

(** [frame.to_crs(crs)] on the joined boundary rows. *)
Definition projected (rows : list lsoa_row) : list lsoa_row :=
  (λ r, LsoaRow (lr_code r) (to_crs S crs (lr_geometry r)) (lr_lookup r)) <$> rows.

(** The spatial join of one location in the loop of
    [convert_list_to_uk_geog], for the elements its query returned; no row
    when the processing of the location raises. *)
Definition location_join (lsoa_boundary_file : list (string * geometry))
  (lsoa_msoa_la_lookup : list lookup_row) (elements : list element) : list join_row :=
  match coordinates_frame elements with
  | Returned coordinates_df =>
      match cluster coordinates_df with
      | Returned polygons =>
          sjoin (merge lsoa_boundary_file lsoa_msoa_la_lookup) (drop_counts <$> polygons)
      | Raised _ => []
      end
  | Raised _ => []
  end.

(** The locations of a list with their joins, when Overpass answers the
    [i]-th query with [answer i]. *)
Definition location_joins (lsoa_boundary_file : list (string * geometry))
  (lsoa_msoa_la_lookup : list lookup_row) (answer : nat → list element)
  (locations_list : list string) : list (string * list join_row) :=
  imap (λ i location,
          (location, location_join lsoa_boundary_file lsoa_msoa_la_lookup (answer i)))
       locations_list.

(** The result frames after the joins of a list of locations have been
    accumulated, one location after the other. *)
Definition gather (og : string) (acc : results)
  (joins : list (string * list join_row)) : results :=
  foldl (λ acc lj, accumulate og lj.1 lj.2 acc) acc joins.

(** What [convert_string_to_uk_geog] does to the outside, in order, when
    nothing raises. *)
Definition uk_geog_events (location p1 p2 : string) (polygons : list polygon_row)
  : list event :=
  [EvQuery (boundary_query "    " "United Kingdom" location);
   EvPrint "Reading in LSOA boundary file... This will take a while...";
   EvReadFile p1;
   EvReadCsv p2;
   EvPrint ("There are " +:+ pretty (length polygons) +:+ " polygons in the input location.");
   EvPrintPolygons true polygons;
   EvPrint "Performing spatial join..."].

(** What one turn of the loop of [convert_list_to_uk_geog] does to the
    outside for a location whose query returned [elements]. *)
Definition location_events (location : string) (elements : list element) : list event :=
  EvQuery (list_query location) ::
  match coordinates_frame elements with
  | Returned coordinates_df =>
      match cluster coordinates_df with
      | Returned polygons =>
          [EvPrint ("There are " +:+ pretty (length polygons)
                    +:+ " polygons in the input location " +:+ " " +:+ location);
           EvPrintPolygons false (drop_counts <$> polygons);
           EvPrint "Performing spatial join..."]
      | Raised _ => [EvPrint ("Error. Likely no polygons found for " +:+ location)]
      end
  | Raised _ => [EvPrint ("Error. Likely no polygons found for " +:+ location)]
  end.

(** What [convert_list_to_uk_geog] does to the outside when the files are
    read and Overpass answers the [i]-th query with [answer i]. *)
Definition list_events (p1 p2 : string) (answer : nat → list element)
  (locations_list : list string) : list event :=
  [EvPrint "Reading in LSOA boundary file... This will take a while...";
   EvReadFile p1;
   EvReadCsv p2]
  ++ mjoin (imap (λ i location, location_events location (answer i)) locations_list).

(** The queries sent to Overpass, read off a trace. *)
Definition queries (w : world) : list string :=
  omap (λ e, match e with EvQuery q => Some q | _ => None end) w.

End Model.

Arguments services : clear implicits.
Arguments polygon_row : clear implicits.
Arguments event : clear implicits.

End UkGeog.

(** ** Stand-ins for the services, to run the functions on *)
Module GeocodingExamples.
Import Py Geocoding.

Definition london : location :=
  Location "London, Greater London, England, United Kingdom" 51.5 (-0.125).

Definition show (x : float) : string :=
  if PrimFloat.eqb x 51.5 then "51.5"
  else if PrimFloat.eqb x (-0.125) then "-0.125"
  else "nan".

(** A geocoder that knows London, finds nothing for Atlantis and times out
    on everything else. *)
Definition stub : services :=
  Services
    (λ _ q, if String.eqb q "London, " then Returned (Some london)
            else if String.eqb q "Atlantis, " then Returned None
            else Raised (Exn "Service timed out"))
    (λ _ q, if String.eqb q "51.5, -0.125" then Returned (Some london)
            else Raised (Exn "Service timed out"))
    (λ r, match r with [x] => x | _ => "Series([], )" end)
    show
    (λ x y, "POINT (" +:+ show x +:+ " " +:+ show y +:+ ")").

Definition disk (files : list (string * csv_file)) : world :=
  World (list_to_map files) [].

Definition places : csv_file := [["LOCATIONS"]; ["London"]; ["Nowhere"]].
Definition no_places : csv_file := [["LOCATIONS"]].
Definition points : csv_file :=
  [["location"; "lat"; "long"]; ["Place A"; "51.5"; "-0.125"]; ["Place B"; "40.7"; "-74.0"]].
Definition earlier : csv_file := [["kept from an earlier run"]].

(** Disks to run on: the input alone, and the input next to an output file
    left by an earlier run. *)
Definition places_disk : world := disk [("places.csv", places)].
Definition no_places_disk : world := disk [("places.csv", no_places)].
Definition points_disk : world := disk [("points.csv", points)].
Definition txt_disk : world := disk [("places.txt", places); ("out.csv", earlier)].
Definition places_again_disk : world := disk [("places.csv", places); ("out.csv", earlier)].
Definition points_again_disk : world := disk [("points.csv", points); ("out.csv", earlier)].

(** A coordinates file with a blank line and a row that lacks its last
    field, and a disk that holds an earlier output only. *)
Definition short_points : csv_file :=
  [["location"; "lat"; "long"]; ["Place A"; "51.5"; "-0.125"]; []; ["Place C"; "48.8"]].
Definition short_points_disk : world := disk [("points.csv", short_points)].
Definition earlier_disk : world := disk [("out.csv", earlier)].

(** An input with an empty line between its rows, and one whose second row
    has a field more than the first. *)
Definition gap_disk : world :=
  disk [("places.csv", [["LOCATIONS"]; ["London"]; []; ["Nowhere"]])].
Definition ragged_again_disk : world :=
  disk [("places.csv", [["LOCATIONS"]; ["London"]; ["North Hill"; " London"]]);
        ("out.csv", earlier)].

End GeocodingExamples.

Module UkGeogExamples.
Import Py UkGeog.

(** A plane geometry stands for itself by the finite list of the points
    that span it. *)
Definition span := list (float * float).

Definition same_point (p q : float * float) : bool :=
  PrimFloat.eqb p.1 q.1 && PrimFloat.eqb p.2 q.2.

Definition camden : list element :=
  [Relation 51000 true;
   Way 7001 false;
   Node 1 51.5 (-0.125) false;
   Node 2 51.75 (-0.25) false;
   Node 3 51.5 (-0.25) true;
   Node 4 53.5 (-2.25) false].

Definition asks (q location : string) : bool :=
  String.eqb q (boundary_query "    " "United Kingdom" location)
  || String.eqb q (boundary_query "        " "United Kingdom" location).

(** An Overpass that knows Camden, finds nothing for Atlantis and is down
    for everything else; the geohash of geolib; a boundary file of three
    LSOAs and a lookup table for two of them. *)
Definition stub : services span :=
  Services
    (λ _ q, if asks q "Camden" then Returned camden
            else if asks q "Atlantis" then Returned []
            else Raised (Exn "The requested data could not be downloaded."))
    Geolib.encode
    (λ _, true)
    (λ x y, [(x, y)])
    (λ gs, mjoin gs)
    id
    (λ _ g, g)
    (λ g h, existsb (λ p, existsb (same_point p) h) g)
    (λ path, if String.eqb path "lsoa.geojson"
             then Returned [("E01000001", [((-0.125)%float, 51.5%float)]);
                            ("E01000002", [((-0.25)%float, 51.75%float)]);
                            ("E01000003", [(1%float, 1%float)])]
             else Raised (Exn "No such file"))
    (λ path, if String.eqb path "lookup.csv"
             then Returned [LookupRow "E01000001" "Camden 001A" "E02000001" "Camden 001"
                                      "E09000007" "Camden";
                            LookupRow "E01000002" "Camden 001B" "E02000001" "Camden 001"
                                      "E09000007" "Camden"]
             else Raised (Exn "No such file"))
    (Exn "Cannot set a DataFrame with multiple columns to the single column geohash")
    (λ _ _ _, Raised (Exn "If using all scalar values, you must pass an index")).

Definition camden_rows : list node_row :=
  [NodeRow 1 51.5 (-0.125) "mpu"; NodeRow 2 51.75 (-0.25) "mpu"; NodeRow 4 53.5 (-2.25) "mpw"].

Definition camden_polygons : list (polygon_row span) :=
  [PolygonRow "mpu" [((-0.125)%float, 51.5%float); ((-0.25)%float, 51.75%float)]
              (Some "node") (Some 2);
   PolygonRow "mpw" [((-2.25)%float, 53.5%float)] (Some "node") (Some 1)].

(** Two nodes at latitude 10, at longitudes 100 and 170. *)
Definition far_east : list element :=
  [Node 11 10 100 false; Node 12 10 170 false].

(** What the stand-in services read from the two files. *)
Definition camden_lsoas : list (string * span) :=
  [("E01000001", [((-0.125)%float, 51.5%float)]);
   ("E01000002", [((-0.25)%float, 51.75%float)]);
   ("E01000003", [(1%float, 1%float)])].

Definition camden_lookup : list lookup_row :=
  [LookupRow "E01000001" "Camden 001A" "E02000001" "Camden 001" "E09000007" "Camden";
   LookupRow "E01000002" "Camden 001B" "E02000001" "Camden 001" "E09000007" "Camden"].

(** The stand-in services with a lookup table that lacks the second LSOA. *)
Definition stub_short_lookup : services span :=
  Services (overpass_query stub) (geohash_encode stub) (crs_known stub) (point stub)
    (unary_union stub) (convex_hull stub) (to_crs stub) (intersects stub)
    (read_boundary_file stub)
    (λ path, if String.eqb path "lookup.csv"
             then Returned [LookupRow "E01000001" "Camden 001A" "E02000001" "Camden 001"
                                      "E09000007" "Camden"]
             else Raised (Exn "No such file"))
    (frame_without_nodes stub) (frame_of_frames stub).

End UkGeogExamples.

(** ** Facts about strings and runs *)
Module PyFacts.
Import Py.

(** Opens the binds of a run, so that it computes step by step. *)
Ltac unfold_M := unfold mbind, M_bind.

Lemma length_append (s t : string) :
  String.length (s +:+ t) = String.length s + String.length t.
Proof.
  induction s as [|c s IH]; [reflexivity|].
  change (String c s +:+ t) with (String c (s +:+ t)). cbn. by rewrite IH.
Qed.

Lemma append_longer (s t : string) : t ≠ EmptyString → s +:+ t ≠ s.
Proof.
  intros Ht Heq. apply (f_equal String.length) in Heq.
  rewrite length_append in Heq. destruct t; [done|]. cbn in Heq. lia.
Qed.

Lemma split_not_nil (sep : ascii) (s : string) : split sep s ≠ [].
Proof.
  induction s as [|c s IH]; [done|]. cbn.
  destruct (Ascii.eqb c sep); [done|]. by destruct (split sep s).
Qed.

Lemma bad_extension_true (path : string) :
  bad_extension path = true ↔ last_item (split "." path) ≠ "csv".
Proof. unfold bad_extension. by rewrite negb_true_iff, String.eqb_neq. Qed.

Lemma split_append (sep : ascii) (p e : string) :
  split sep (p +:+ String sep e) = split sep p ++ split sep e.
Proof.
  induction p as [|c p IH].
  { change (EmptyString +:+ String sep e) with (String sep e).
    cbn. by rewrite Ascii.eqb_refl. }
  change (String c p +:+ String sep e) with (String c (p +:+ String sep e)).
  cbn [split]. rewrite IH. destruct (Ascii.eqb c sep); [done|].
  pose proof (split_not_nil sep p). by destruct (split sep p).
Qed.

Lemma split_without (sep : ascii) (s : string) :
  contains sep s = false → split sep s = [s].
Proof.
  induction s as [|c s IH]; [done|]. cbn. intros [Hc Hs]%orb_false_iff.
  by rewrite Hc, (IH Hs).
Qed.

Lemma last_item_app (l k : list string) : k ≠ [] → last_item (l ++ k) = last_item k.
Proof.
  intros Hk. unfold last_item. destruct k as [|x k]; [done|].
  induction l as [|y l IH]; [done|]. cbn [List.app]. rewrite <- IH.
  by destruct (l ++ x :: k) eqn:E; [destruct l|].
Qed.

End PyFacts.

(** ** Facts about the geocoding scripts *)
Module GeocodingFacts.
Import Py PyFacts Geocoding.

(** *** What one turn, the loop and the whole run of
    [convert_string_to_coordinates] come to *)

Lemma coordinates_step_run S pout app i r w :
  coordinates_step S pout app i r w =
  (Returned (),
   World (<[pout := (if Nat.eqb i 0 then [coordinates_header]
                     else default [] (fs w !! pout)) ++ [output_row S app i r]]> (fs w))
         (trace w ++ step_events S pout app i r)).
Proof.
  unfold coordinates_step, step_events, output_row, row_query, geocoded_row, to_csv,
    store_rows, try_except, log, lift, mbind, M_bind, mret, M_ret, raise.
  destruct (geocode S i _) as [[loc|]|e]; destruct (Nat.eqb i 0); cbn;
    rewrite <- ?app_assoc; reflexivity.
Qed.

Lemma coordinates_loop_run S pout app rows : ∀ i w,
  ∃ w', coordinates_loop S pout app i rows w = (Returned (), w')
    ∧ fs w' = match rows with
              | [] => fs w
              | _ => <[pout := (if Nat.eqb i 0 then [coordinates_header]
                                else default [] (fs w !! pout))
                               ++ imap (λ k r, output_row S app (i + k) r) rows]> (fs w)
              end
    ∧ trace w' = trace w ++ mjoin (imap (λ k r, step_events S pout app (i + k) r) rows).
Proof.
  induction rows as [|r rest IH]; intros i w.
  - exists w. cbn. by rewrite app_nil_r.
  - cbn [coordinates_loop]. unfold mbind, M_bind at 1.
    rewrite coordinates_step_run.
    destruct (IH (Datatypes.S i) (World (<[pout := (if Nat.eqb i 0 then [coordinates_header]
                     else default [] (fs w !! pout)) ++ [output_row S app i r]]> (fs w))
         (trace w ++ step_events S pout app i r))) as (w' & Hrun & Hfs & Htr).
    exists w'. split; [exact Hrun|]. cbn [fs trace] in Hfs, Htr.
    rewrite !imap_cons, Nat.add_0_r. split.
    + rewrite Hfs.
      destruct rest as [|r' rest']; [reflexivity|].
      rewrite lookup_insert_eq. cbn [from_option id Nat.eqb].
      rewrite insert_insert_eq, <- app_assoc. cbn [List.app].
      do 3 f_equal. apply imap_ext. intros k x _. cbn. f_equal. lia.
    + rewrite Htr, <- app_assoc. cbn [mjoin list_join]. do 3 f_equal.
      apply imap_ext. intros k x _. cbn. f_equal. lia.
Qed.

Lemma convert_string_to_coordinates_run S w pin pout app content rows :
  bad_extension pin = false →
  fs w !! pin = Some content →
  read_frame content = Returned rows →
  ∃ w', convert_string_to_coordinates S pin pout app w = (Returned (), w')
    ∧ fs w' = match rows with
              | [] => fs w
              | _ => <[pout := coordinates_header :: imap (output_row S app) rows]> (fs w)
              end
    ∧ trace w' = trace w ++ [EvRead pin]
                   ++ mjoin (imap (step_events S pout app) rows)
                   ++ [EvPrint "Program has finished running"].
Proof.
  intros Hext Hin Hrows. unfold convert_string_to_coordinates. rewrite Hext.
  unfold read_csv, parse_csv, log, mbind, M_bind. cbn [fs trace]. rewrite Hin, Hrows.
  destruct (coordinates_loop_run S pout app rows 0 (World (fs w) (trace w ++ [EvRead pin])))
    as (w1 & Hrun & Hfs & Htr).
  rewrite Hrun. eexists. split; [reflexivity|]. cbn [fs trace] in *. split.
  - rewrite Hfs. destruct rows; reflexivity.
  - rewrite Htr, <- !app_assoc. reflexivity.
Qed.

(** A run whose input cannot be read ends at the read. *)
Lemma convert_string_to_coordinates_unread S w pin pout app e :
  bad_extension pin = false →
  parse_csv pin w = (Raised e, w) →
  convert_string_to_coordinates S pin pout app w
  = (Raised e, World (fs w) (trace w ++ [EvRead pin])).
Proof.
  intros Hext Hread. unfold convert_string_to_coordinates. rewrite Hext.
  unfold read_csv, log, mbind, M_bind. cbn [fs trace].
  unfold parse_csv in *. cbn [fs].
  destruct (fs w !! pin) as [content|]; [|by simplify_eq].
  destruct (read_frame content); by simplify_eq.
Qed.

(** *** The same for [convert_coordinates_to_address] *)

Lemma address_loop_fs S pout fieldnames rows : ∀ i w old,
  fs w !! pout = Some old →
  fs (address_loop S pout fieldnames i rows w).2
  = <[pout := old ++ rows_written S fieldnames i rows]> (fs w).
Proof.
  induction rows as [|r rest IH]; intros i w old Hold.
  - cbn. rewrite app_nil_r. by rewrite insert_id.
  - destruct r as [|c cs]; [cbn; by apply IH|].
    cbn [address_loop rows_written]. rewrite bool_decide_eq_false_2 by done.
    unfold has_key, address_row, address_text, coordinates_text, row_value, getitem.
    unfold mbind, M_bind at 1.
    destruct (dict_get _ "location") as [loc|] eqn:Hloc; cbn;
      [|rewrite app_nil_r; by rewrite insert_id].
    unfold mbind, M_bind at 1.
    destruct (dict_get _ "lat") as [lat|] eqn:Hlat; cbn;
      [|rewrite app_nil_r; by rewrite insert_id].
    unfold mbind, M_bind at 1.
    destruct (dict_get _ "long") as [lon|] eqn:Hlon; cbn;
      [|rewrite app_nil_r; by rewrite insert_id].
    unfold mbind, M_bind at 1. unfold try_except, log, lift, writerow.
    unfold mbind, M_bind at 2. unfold mbind, M_bind at 2. cbn.
    destruct (reverse S i _) as [a|e]; cbn;
      (erewrite IH by (cbn; apply lookup_insert_eq));
      rewrite Hold; cbn; rewrite insert_insert_eq, <- app_assoc; reflexivity.
Qed.

Lemma dict_get_is_Some fieldnames key : ∀ r,
  key ∈ fieldnames → is_Some (dict_get (dict_row fieldnames r) key).
Proof.
  induction fieldnames as [|k ks IH]; intros r Hin; [by apply elem_of_nil in Hin|].
  apply elem_of_cons in Hin.
  assert (∀ v d, (key = k ∨ is_Some (dict_get d key)) → is_Some (dict_get ((k, v) :: d) key))
    as Hcons.
  { intros v d Hor. cbn. destruct (dict_get d key); [eauto|].
    destruct Hor as [->|[? ?]]; [|done]. rewrite String.eqb_refl. eauto. }
  destruct r; cbn [dict_row]; apply Hcons; destruct Hin; eauto.
Qed.

Lemma has_key_true fieldnames r key : key ∈ fieldnames → has_key fieldnames r key = true.
Proof.
  intros Hin. unfold has_key.
  by destruct (dict_get_is_Some fieldnames key r Hin) as [v ->].
Qed.

Lemma rows_written_all S fieldnames rows : ∀ i,
  "location" ∈ fieldnames → "lat" ∈ fieldnames → "long" ∈ fieldnames →
  rows_written S fieldnames i rows
  = imap (λ k r, address_row S fieldnames (i + k) r) (filter (λ r, r ≠ []) rows).
Proof.
  intros i H1 H2 H3. revert i.
  induction rows as [|r rest IH]; intros i; [reflexivity|].
  cbn [rows_written]. rewrite filter_cons. case_bool_decide as Hr.
  - rewrite decide_False by (intros Hne; by apply Hne). apply IH.
  - rewrite decide_True by done. rewrite !has_key_true by done. cbn [andb].
    rewrite imap_cons, Nat.add_0_r, IH. f_equal.
    apply imap_ext. intros k x _. cbn. f_equal. lia.
Qed.

Lemma address_loop_returns S pout fieldnames rows : ∀ i w,
  "location" ∈ fieldnames → "lat" ∈ fieldnames → "long" ∈ fieldnames →
  ∃ w', address_loop S pout fieldnames i rows w = (Returned (), w')
    ∧ trace w' = trace w ++ (EvReverse ∘ coordinates_text fieldnames
                               <$> filter (λ r, r ≠ []) rows).
Proof.
  intros i w H1 H2 H3. revert i w.
  induction rows as [|r rest IH]; intros i w.
  - exists w. cbn. by rewrite app_nil_r.
  - destruct r as [|c cs].
    { rewrite filter_cons, decide_False by (intros Hne; by apply Hne). apply IH. }
    rewrite filter_cons, decide_True by done.
    cbn [address_loop]. unfold getitem, coordinates_text, row_value.
    destruct (dict_get_is_Some fieldnames "location" (c :: cs) H1) as [loc Hloc].
    destruct (dict_get_is_Some fieldnames "lat" (c :: cs) H2) as [lat Hlat].
    destruct (dict_get_is_Some fieldnames "long" (c :: cs) H3) as [lon Hlon].
    rewrite Hloc, Hlat, Hlon. cbn. unfold mbind, M_bind at 1. cbn.
    destruct (reverse S i _) as [a|e]; cbn;
      match goal with |- context [address_loop _ _ _ _ _ ?w1] =>
        destruct (IH (Datatypes.S i) w1) as (w' & -> & Htr) end;
      exists w'; (split; [reflexivity|]); rewrite Htr; cbn;
      rewrite Hlat, Hlon, <- app_assoc; reflexivity.
Qed.

Lemma convert_coordinates_to_address_fs S w pin pout content :
  bad_extension pin = false → pin ≠ pout → fs w !! pin = Some content →
  fs (convert_coordinates_to_address S pin pout w).2
  = <[pout := address_header :: rows_written S (default [] (head content)) 0 (tail content)]>
      (fs w).
Proof.
  intros Hext Hne Hin. unfold convert_coordinates_to_address. rewrite Hext.
  unfold open_read, open_write, writerow, reader_rows, log, mbind, M_bind.
  cbn. rewrite Hin. cbn.
  assert (pout ≠ pin) as Hne' by congruence.
  rewrite lookup_insert_eq, !lookup_insert_ne, Hin by done. cbn.
  rewrite insert_insert_eq.
  set (w1 := World _ _).
  assert (∀ fieldnames rows,
    fs (let '(o, w2) := address_loop S pout fieldnames 0 rows w1 in
        match o with
        | Returned _ => (Returned (), World (fs w2) (trace w2 ++ [EvPrint "Conversion complete."]))
        | Raised e => (Raised e, w2)
        end).2 = <[pout := address_header :: rows_written S fieldnames 0 rows]> (fs w)) as Hloop.
  { intros fieldnames rows.
    pose proof (address_loop_fs S pout fieldnames rows 0 w1 [address_header]) as Hfs.
    destruct (address_loop S pout fieldnames 0 rows w1) as [[?|?] ?]; cbn in *;
      rewrite Hfs by apply lookup_insert_eq; by rewrite insert_insert_eq. }
  destruct content as [|fieldnames rows]; apply Hloop.
Qed.

Lemma reverse_queries_fmap {A} (f : A → string) (l : list A) :
  reverse_queries (EvReverse ∘ f <$> l) = f <$> l.
Proof. induction l as [|x l IH]; [reflexivity|]. cbn. by f_equal. Qed.

Lemma convert_coordinates_to_address_run S w pin pout fieldnames rows :
  bad_extension pin = false → pin ≠ pout → fs w !! pin = Some (fieldnames :: rows) →
  "location" ∈ fieldnames → "lat" ∈ fieldnames → "long" ∈ fieldnames →
  ∃ w', convert_coordinates_to_address S pin pout w = (Returned (), w')
    ∧ fs w' = <[pout := address_header
                  :: imap (address_row S fieldnames) (filter (λ r, r ≠ []) rows)]> (fs w)
    ∧ reverse_queries (trace w')
      = reverse_queries (trace w)
          ++ (coordinates_text fieldnames <$> filter (λ r, r ≠ []) rows).
Proof.
  intros Hext Hne Hin H1 H2 H3.
  pose proof (convert_coordinates_to_address_fs S w pin pout _ Hext Hne Hin) as Hfs.
  cbn in Hfs. rewrite rows_written_all in Hfs by done.
  revert Hfs. unfold convert_coordinates_to_address. rewrite Hext.
  unfold open_read, open_write, writerow, reader_rows, log, mbind, M_bind.
  cbn. rewrite Hin. cbn.
  assert (pout ≠ pin) as Hne' by congruence.
  rewrite lookup_insert_eq, !lookup_insert_ne, Hin by done. cbn.
  set (w1 := World _ _).
  destruct (address_loop_returns S pout fieldnames rows 0 w1 H1 H2 H3) as (w2 & -> & Htr).
  intros Hfs. eexists. split; [reflexivity|]. split; [exact Hfs|].
  cbn. rewrite Htr. subst w1. cbn. unfold reverse_queries.
  rewrite !omap_app. cbn. rewrite !app_nil_r. f_equal.
  apply reverse_queries_fmap.
Qed.

(** *** The queries and the file modes in the trace *)

Lemma geocode_queries_step S pout app i r :
  geocode_queries (step_events S pout app i r) = [row_query S app r].
Proof. unfold step_events. by destruct (Nat.eqb i 0). Qed.

Lemma write_modes_step S pout app i r :
  write_modes (step_events S pout app i r) = [if Nat.eqb i 0 then "w+" else "a"].
Proof. unfold step_events. by destruct (Nat.eqb i 0). Qed.

Lemma geocode_queries_steps S pout app (rows : csv_file) :
  geocode_queries (mjoin (imap (step_events S pout app) rows)) = row_query S app <$> rows.
Proof.
  generalize (step_events S pout app) (geocode_queries_step S pout app).
  induction rows as [|r rest IH]; intros f Hf; [reflexivity|].
  rewrite imap_cons. change (mjoin (?x :: ?l)) with (x ++ mjoin l).
  unfold geocode_queries in *. rewrite omap_app, Hf, IH; [reflexivity|].
  intros i r'. apply Hf.
Qed.

Lemma write_modes_steps S pout app (rows : csv_file) :
  write_modes (mjoin (imap (step_events S pout app) rows))
  = imap (λ i _, if Nat.eqb i 0 then "w+" else "a") rows.
Proof.
  assert (∀ (l : csv_file) i,
    write_modes (mjoin (imap (λ k r, step_events S pout app (i + k) r) l))
    = imap (λ k _, if Nat.eqb (i + k) 0 then "w+" else "a") l) as Hgen.
  { induction l as [|r rest IH]; intros i; [reflexivity|].
    rewrite !imap_cons. change (mjoin (?x :: ?l)) with (x ++ mjoin l).
    unfold write_modes in *. rewrite omap_app.
    fold (write_modes (step_events S pout app (i + 0) r)). rewrite write_modes_step.
    cbn [List.app]. f_equal.
    rewrite <- (imap_ext (λ k _, if Nat.eqb (Datatypes.S i + k) 0 then "w+" else "a"));
      [|intros k x _; cbn; by replace (i + Datatypes.S k) with (Datatypes.S (i + k)) by lia].
    rewrite <- (IH (Datatypes.S i)). do 2 f_equal.
    apply imap_ext. intros k x _. cbn. f_equal. lia. }
  exact (Hgen rows 0).
Qed.

(** *** The claims *)

(** C5: a path whose last dot-separated piece is not csv makes both
    functions raise at once: the world is as it was, so no file was read,
    no service was called and no output file was made or changed. *)
Theorem bad_extension_raises_first S w pin pout app :
  last_item (split "." pin) ≠ "csv" →
  convert_string_to_coordinates S pin pout app w = (Raised extension_error, w)
  ∧ convert_coordinates_to_address S pin pout w = (Raised extension_error, w).
Proof.
  intros Hne. apply bad_extension_true in Hne.
  unfold convert_string_to_coordinates, convert_coordinates_to_address.
  rewrite Hne. split; reflexivity.
Qed.

Lemma bad_extension_raises_first_txt :
  last_item (split "." "places.txt") ≠ "csv"
  ∧ convert_string_to_coordinates GeocodingExamples.stub "places.txt" "out.csv" ""
      GeocodingExamples.txt_disk
    = (Raised extension_error,
       GeocodingExamples.txt_disk)
  ∧ convert_coordinates_to_address GeocodingExamples.stub "places.txt" "out.csv"
      GeocodingExamples.txt_disk
    = (Raised extension_error,
       GeocodingExamples.txt_disk).
Proof.
  assert (last_item (split "." "places.txt") ≠ "csv") as Hne by (vm_compute; discriminate).
  split; [exact Hne|].
  exact (bad_extension_raises_first GeocodingExamples.stub _ "places.txt" "out.csv" "" Hne).
Defined.

(** C9: the strings sent to the geocoder are, row by row of the frame read
    from the input, the row's text, then a comma and a blank, then
    [append_str_to_input]; none of them is the row's text itself, and with
    the default empty suffix the query ends in the comma and the blank. *)
Theorem geocoder_gets_suffixed_rows S w pin pout app content rows :
  bad_extension pin = false →
  fs w !! pin = Some content →
  read_frame content = Returned rows →
  geocode_queries (trace (convert_string_to_coordinates S pin pout app w).2)
  = geocode_queries (trace w) ++ ((λ r, series_to_string S r +:+ ", " +:+ app) <$> rows)
  ∧ (∀ r, series_to_string S r +:+ ", " +:+ app ≠ series_to_string S r)
  ∧ (∀ r, series_to_string S r +:+ ", " +:+ "" = series_to_string S r +:+ ", ").
Proof.
  intros Hext Hin Hrows.
  destruct (convert_string_to_coordinates_run S w pin pout app content rows Hext Hin Hrows)
    as (w' & -> & _ & Htr).
  cbn [snd]. rewrite Htr. unfold geocode_queries at 1. rewrite !omap_app.
  fold (geocode_queries (trace w)).
  fold (geocode_queries (mjoin (imap (step_events S pout app) rows))).
  rewrite geocode_queries_steps. cbn. rewrite app_nil_r.
  split; [reflexivity|]. split.
  - intros r. apply append_longer. by destruct app.
  - intros r. repeat f_equal.
Qed.

Lemma geocoder_gets_suffixed_rows_places :
  bad_extension "places.csv" = false
  ∧ fs GeocodingExamples.gap_disk !! "places.csv"
    = Some [["LOCATIONS"]; ["London"]; []; ["Nowhere"]]
  ∧ read_frame [["LOCATIONS"]; ["London"]; []; ["Nowhere"]]
    = Returned [["London"]; ["Nowhere"]]
  ∧ geocode_queries
      (trace (convert_string_to_coordinates GeocodingExamples.stub "places.csv" "out.csv" ""
                GeocodingExamples.gap_disk).2)
    = [] ++ ["London, "; "Nowhere, "].
Proof.
  assert (bad_extension "places.csv" = false) as Hext by reflexivity.
  assert (fs GeocodingExamples.gap_disk !! "places.csv"
          = Some [["LOCATIONS"]; ["London"]; []; ["Nowhere"]]) as Hin by reflexivity.
  assert (read_frame [["LOCATIONS"]; ["London"]; []; ["Nowhere"]]
          = Returned [["London"]; ["Nowhere"]]) as Hrows by reflexivity.
  split; [exact Hext|]. split; [exact Hin|]. split; [exact Hrows|].
  exact (proj1 (geocoder_gets_suffixed_rows GeocodingExamples.stub _ "places.csv" "out.csv" ""
                  _ _ Hext Hin Hrows)).
Defined.

(** C2: what is written for a row the geocoder answers, [i] being the
    place of the row in the frame read from the input.  The [long] and the
    [lat] column both hold the returned latitude; the [wkt] column holds the
    point of the returned longitude and latitude, and the last column the
    returned address. *)
Theorem geocoded_row_written S w pin pout app content rows i r loc :
  bad_extension pin = false →
  fs w !! pin = Some content →
  read_frame content = Returned rows →
  rows !! i = Some r →
  geocode S i (series_to_string S r +:+ ", " +:+ app) = Returned (Some loc) →
  ∃ written,
    fs (convert_string_to_coordinates S pin pout app w).2 !! pout
    = Some (coordinates_header :: written)
    ∧ written !! i = Some [series_to_string S r;
                           float_repr S (latitude loc);
                           float_repr S (latitude loc);
                           point_wkt S (longitude loc) (latitude loc);
                           address loc].
Proof.
  intros Hext Hin Hrows Hr Hgeo.
  destruct (convert_string_to_coordinates_run S w pin pout app content rows Hext Hin Hrows)
    as (w' & -> & Hfs & _).
  cbn [snd]. rewrite Hfs. destruct rows as [|r0 rows0]; [by rewrite lookup_nil in Hr|].
  rewrite lookup_insert_eq. eexists. split; [reflexivity|].
  rewrite list_lookup_imap, Hr. cbn. unfold output_row, row_query. by rewrite Hgeo.
Qed.

Lemma geocoded_row_written_london :
  (bad_extension "places.csv" = false
   ∧ fs GeocodingExamples.places_disk !! "places.csv" = Some GeocodingExamples.places
   ∧ read_frame GeocodingExamples.places = Returned [["London"]; ["Nowhere"]]
   ∧ [["London"]; ["Nowhere"]] !! 0 = Some ["London"]
   ∧ geocode GeocodingExamples.stub 0
       (series_to_string GeocodingExamples.stub ["London"] +:+ ", " +:+ "")
     = Returned (Some GeocodingExamples.london))
  ∧ ∃ written,
      fs (convert_string_to_coordinates GeocodingExamples.stub "places.csv" "out.csv" ""
            GeocodingExamples.places_disk).2 !! "out.csv"
      = Some (coordinates_header :: written)
      ∧ written !! 0 = Some ["London"; "51.5"; "51.5"; "POINT (-0.125 51.5)";
                             "London, Greater London, England, United Kingdom"].
Proof.
  assert (bad_extension "places.csv" = false) as Hext by reflexivity.
  assert (fs GeocodingExamples.places_disk !! "places.csv" = Some GeocodingExamples.places)
    as Hin by reflexivity.
  assert (read_frame GeocodingExamples.places = Returned [["London"]; ["Nowhere"]])
    as Hrows by reflexivity.
  assert ([["London"]; ["Nowhere"]] !! 0 = Some ["London"]) as Hr by reflexivity.
  assert (geocode GeocodingExamples.stub 0
            (series_to_string GeocodingExamples.stub ["London"] +:+ ", " +:+ "")
          = Returned (Some GeocodingExamples.london)) as Hgeo by reflexivity.
  split; [by repeat split|].
  exact (geocoded_row_written GeocodingExamples.stub _ "places.csv" "out.csv" "" _ _ 0 _ _
           Hext Hin Hrows Hr Hgeo).
Defined.

(** C4: a row whose geocoding call raises still gets its output row, with
    the exception's message in the address column, and the run goes on to
    its end: it returns, and the output holds one row for every input row.
    Each function on its own: forward geocoding first (the input rows are
    the rows of the frame read from the input), reverse geocoding second
    (the input rows are the lines that are not empty, and the header must
    name the three columns the loop reads). *)
Theorem geocoder_error_row_written S :
  (∀ w pin pout app content rows i r e,
     bad_extension pin = false →
     fs w !! pin = Some content →
     read_frame content = Returned rows →
     rows !! i = Some r →
     geocode S i (series_to_string S r +:+ ", " +:+ app) = Raised e →
     ∃ w' written,
       convert_string_to_coordinates S pin pout app w = (Returned (), w')
       ∧ fs w' !! pout = Some (coordinates_header :: written)
       ∧ length written = length rows
       ∧ written !! i = Some [series_to_string S r; ""; ""; ""; msg e])
  ∧ (∀ w pin pout fieldnames rows j r e,
       bad_extension pin = false →
       pin ≠ pout →
       fs w !! pin = Some (fieldnames :: rows) →
       "location" ∈ fieldnames → "lat" ∈ fieldnames → "long" ∈ fieldnames →
       filter (λ r, r ≠ []) rows !! j = Some r →
       reverse S j (coordinates_text fieldnames r) = Raised e →
       ∃ w' written,
         convert_coordinates_to_address S pin pout w = (Returned (), w')
         ∧ fs w' !! pout = Some (address_header :: written)
         ∧ length written = length (filter (λ r, r ≠ []) rows)
         ∧ written !! j = Some [field (row_value fieldnames r "location");
                                field (row_value fieldnames r "lat");
                                field (row_value fieldnames r "long");
                                msg e]).
Proof.
  split.
  - intros w pin pout app content rows i r e Hext Hin Hrows Hr Hgeo.
    destruct (convert_string_to_coordinates_run S w pin pout app content rows Hext Hin Hrows)
      as (w' & Hrun & Hfs & _).
    exists w', (imap (output_row S app) rows). split; [exact Hrun|].
    destruct rows as [|r0 rows0]; [by rewrite lookup_nil in Hr|].
    rewrite Hfs, lookup_insert_eq. split; [reflexivity|].
    split; [apply length_imap|].
    rewrite list_lookup_imap, Hr. cbn. unfold output_row, row_query. by rewrite Hgeo.
  - intros w pin pout fieldnames rows j r e Hext Hne Hin H1 H2 H3 Hr Hrev.
    destruct (convert_coordinates_to_address_run S w pin pout fieldnames rows
                Hext Hne Hin H1 H2 H3) as (w' & Hrun & Hfs & _).
    exists w', (imap (address_row S fieldnames) (filter (λ r, r ≠ []) rows)).
    split; [exact Hrun|]. rewrite Hfs, lookup_insert_eq. split; [reflexivity|].
    split; [apply length_imap|].
    rewrite list_lookup_imap, Hr. cbn. unfold address_row, address_text. by rewrite Hrev.
Qed.

Lemma geocoder_error_row_written_timeouts :
  (∃ w' written,
     convert_string_to_coordinates GeocodingExamples.stub "places.csv" "out.csv" ""
       GeocodingExamples.places_disk = (Returned (), w')
     ∧ fs w' !! "out.csv" = Some (coordinates_header :: written)
     ∧ length written = 2
     ∧ written !! 1 = Some ["Nowhere"; ""; ""; ""; "Service timed out"])
  ∧ (∃ w' written,
       convert_coordinates_to_address GeocodingExamples.stub "points.csv" "out.csv"
         GeocodingExamples.points_disk = (Returned (), w')
       ∧ fs w' !! "out.csv" = Some (address_header :: written)
       ∧ length written = 2
       ∧ written !! 1 = Some ["Place B"; "40.7"; "-74.0"; "Service timed out"]).
Proof.
  destruct (geocoder_error_row_written GeocodingExamples.stub) as [Hforward Hreverse].
  split.
  - apply (Hforward GeocodingExamples.places_disk "places.csv" "out.csv" ""
             GeocodingExamples.places [["London"]; ["Nowhere"]] 1 ["Nowhere"]
             (Exn "Service timed out")); reflexivity.
  - apply (Hreverse GeocodingExamples.points_disk "points.csv" "out.csv"
             ["location"; "lat"; "long"]
             [["Place A"; "51.5"; "-0.125"]; ["Place B"; "40.7"; "-74.0"]]
             1 ["Place B"; "40.7"; "-74.0"] (Exn "Service timed out"));
      try reflexivity; try discriminate; apply list_elem_of_In; cbn; tauto.
Defined.

(** C7: the first row of the frame is written with the header in mode [w+]
    and every later row is appended in mode [a], so after a run over one or
    more input rows the output file is the header followed by one row per
    input row, in input order.  A run over a frame of no row opens no file
    at all: the header line is not written either and the
    output file is not created, where the function's docstring says it will
    be. *)
Theorem header_then_row_per_input S w pin pout app content rows :
  bad_extension pin = false →
  fs w !! pin = Some content →
  read_frame content = Returned rows →
  ∃ w', convert_string_to_coordinates S pin pout app w = (Returned (), w')
    ∧ write_modes (trace w')
      = write_modes (trace w) ++ imap (λ i _, if Nat.eqb i 0 then "w+" else "a") rows
    ∧ (rows ≠ [] →
       fs w' !! pout = Some (coordinates_header :: imap (output_row S app) rows))
    ∧ (rows = [] → fs w' = fs w).
Proof.
  intros Hext Hin Hrows.
  destruct (convert_string_to_coordinates_run S w pin pout app content rows Hext Hin Hrows)
    as (w' & Hrun & Hfs & Htr).
  exists w'. split; [exact Hrun|]. split; [|split].
  - rewrite Htr. unfold write_modes at 1. rewrite !omap_app.
    fold (write_modes (trace w)).
    fold (write_modes (mjoin (imap (step_events S pout app) rows))).
    rewrite write_modes_steps. cbn. by rewrite app_nil_r.
  - intros Hne. rewrite Hfs. destruct rows; [done|]. apply lookup_insert_eq.
  - intros ->. exact Hfs.
Qed.

Lemma header_then_row_per_input_places :
  (∃ w', convert_string_to_coordinates GeocodingExamples.stub "places.csv" "out.csv" ""
           GeocodingExamples.places_again_disk
         = (Returned (), w')
     ∧ write_modes (trace w') = ["w+"; "a"]
     ∧ fs w' !! "out.csv"
       = Some [coordinates_header;
               ["London"; "51.5"; "51.5"; "POINT (-0.125 51.5)";
                "London, Greater London, England, United Kingdom"];
               ["Nowhere"; ""; ""; ""; "Service timed out"]])
  ∧ (∃ w', convert_string_to_coordinates GeocodingExamples.stub "places.csv" "out.csv" ""
             GeocodingExamples.no_places_disk
           = (Returned (), w')
       ∧ write_modes (trace w') = []
       ∧ fs w' !! "out.csv" = None).
Proof.
  split.
  - destruct (header_then_row_per_input GeocodingExamples.stub
                GeocodingExamples.places_again_disk
                "places.csv" "out.csv" "" GeocodingExamples.places [["London"]; ["Nowhere"]])
      as (w' & Hrun & Hmodes & Hrows & _); [reflexivity..|].
    exists w'. split; [exact Hrun|]. split; [exact Hmodes|]. by apply Hrows.
  - destruct (header_then_row_per_input GeocodingExamples.stub
                GeocodingExamples.no_places_disk
                "places.csv" "out.csv" "" GeocodingExamples.no_places [])
      as (w' & Hrun & Hmodes & _ & Hnone); [reflexivity..|].
    exists w'. split; [exact Hrun|]. split; [exact Hmodes|].
    by rewrite (Hnone eq_refl).
Defined.

(** C10, at a path that fails the extension check, with an output file
    left by an earlier run: both functions raise at the check and the
    output file still holds the earlier text. *)
Lemma bad_extension_keeps_earlier_output :
  fs GeocodingExamples.txt_disk !! "out.csv" = Some GeocodingExamples.earlier
  ∧ fs (convert_string_to_coordinates GeocodingExamples.stub "places.txt" "out.csv" ""
          GeocodingExamples.txt_disk).2 !! "out.csv"
    = Some GeocodingExamples.earlier
  ∧ fs (convert_coordinates_to_address GeocodingExamples.stub "places.txt" "out.csv"
          GeocodingExamples.txt_disk).2 !! "out.csv"
    = Some GeocodingExamples.earlier.
Proof. repeat split. Qed.

(** C10, amended: the output file is opened for writing only after the
    extension check and after the input was opened and, by
    [convert_string_to_coordinates], read.  A run of
    [convert_string_to_coordinates] that reads one or more input rows, and
    a run of [convert_coordinates_to_address] that gets past the check and
    finds its input file, end with an output file made of the header and
    the rows of this run only: whatever the file held before is gone, and
    the result is the same whatever it held.
    A run that raises at the check, or because its input is missing or, for
    [convert_string_to_coordinates], cannot be parsed, leaves every file as
    it was. *)
Theorem earlier_output_replaced S :
  (∀ w pin pout app content r rows,
     bad_extension pin = false →
     fs w !! pin = Some content →
     read_frame content = Returned (r :: rows) →
     fs (convert_string_to_coordinates S pin pout app w).2 !! pout
     = Some (coordinates_header :: imap (output_row S app) (r :: rows)))
  ∧ (∀ w pin pout content,
       bad_extension pin = false →
       fs w !! pin = Some content →
       ∃ written, ∀ earlier,
         fs (convert_coordinates_to_address S pin pout
               (World (<[pout := earlier]> (fs w)) (trace w))).2 !! pout
         = Some (address_header :: written)
         ∧ fs (convert_coordinates_to_address S pin pout w).2 !! pout
           = Some (address_header :: written))
  ∧ (∀ w pin pout app,
       bad_extension pin = true ∨ (∃ e, parse_csv pin w = (Raised e, w)) →
       fs (convert_string_to_coordinates S pin pout app w).2 = fs w)
  ∧ (∀ w pin pout,
       bad_extension pin = true ∨ fs w !! pin = None →
       fs (convert_coordinates_to_address S pin pout w).2 = fs w).
Proof.
  split; [|split; [|split]].
  - intros w pin pout app content r rows Hext Hin Hrows.
    destruct (convert_string_to_coordinates_run S w pin pout app content (r :: rows)
                Hext Hin Hrows) as (w' & -> & Hfs & _).
    cbn [snd]. rewrite Hfs. apply lookup_insert_eq.
  - intros w pin pout content Hext Hin.
    destruct (decide (pin = pout)) as [<-|Hne].
    { exists []. intros earlier.
      unfold convert_coordinates_to_address. rewrite Hext.
      unfold open_read, open_write, writerow, reader_rows, log, mbind, M_bind.
      cbn. rewrite Hin. cbn. rewrite !lookup_insert_eq. cbn.
      split; apply lookup_insert_eq. }
    exists (rows_written S (default [] (head content)) 0 (tail content)).
    intros earlier. split.
    + rewrite (convert_coordinates_to_address_fs S _ pin pout content Hext Hne).
      * apply lookup_insert_eq.
      * cbn. rewrite lookup_insert_ne by congruence. exact Hin.
    + rewrite (convert_coordinates_to_address_fs S _ pin pout content Hext Hne Hin).
      apply lookup_insert_eq.
  - intros w pin pout app [Hext|[e Hread]].
    + unfold convert_string_to_coordinates. by rewrite Hext.
    + destruct (bad_extension pin) eqn:Hext.
      * unfold convert_string_to_coordinates. by rewrite Hext.
      * by rewrite (convert_string_to_coordinates_unread S w pin pout app e Hext Hread).
  - intros w pin pout [Hext|Hin].
    + unfold convert_coordinates_to_address. by rewrite Hext.
    + unfold convert_coordinates_to_address. destruct (bad_extension pin); [done|].
      unfold open_read, mbind, M_bind. by rewrite Hin.
Qed.

Lemma earlier_output_replaced_places :
  fs (convert_string_to_coordinates GeocodingExamples.stub "places.csv" "out.csv" ""
        GeocodingExamples.places_again_disk).2
    !! "out.csv"
  = Some [coordinates_header;
          ["London"; "51.5"; "51.5"; "POINT (-0.125 51.5)";
           "London, Greater London, England, United Kingdom"];
          ["Nowhere"; ""; ""; ""; "Service timed out"]]
  ∧ (∃ written,
       fs (convert_coordinates_to_address GeocodingExamples.stub "points.csv" "out.csv"
             GeocodingExamples.points_again_disk).2
         !! "out.csv"
       = Some (address_header :: written))
  ∧ fs (convert_string_to_coordinates GeocodingExamples.stub "places.csv" "out.csv" ""
          GeocodingExamples.ragged_again_disk).2 !! "out.csv"
    = Some GeocodingExamples.earlier
  ∧ fs (convert_coordinates_to_address GeocodingExamples.stub "places.csv" "out.csv"
          GeocodingExamples.earlier_disk).2 !! "out.csv"
    = Some GeocodingExamples.earlier.
Proof.
  destruct (earlier_output_replaced GeocodingExamples.stub)
    as (Hforward & Hreverse & Hunread & Hmissing).
  split; [|split; [|split]].
  - apply (Hforward GeocodingExamples.places_again_disk "places.csv" "out.csv" ""
             GeocodingExamples.places ["London"] [["Nowhere"]]); reflexivity.
  - destruct (Hreverse GeocodingExamples.points_again_disk "points.csv" "out.csv"
                GeocodingExamples.points) as [written Hwritten];
      [reflexivity|reflexivity|].
    exists written. exact (proj2 (Hwritten [])).
  - rewrite (Hunread GeocodingExamples.ragged_again_disk "places.csv" "out.csv" "");
      [reflexivity|].
    right. eexists. reflexivity.
  - rewrite (Hmissing GeocodingExamples.earlier_disk "places.csv" "out.csv");
      [reflexivity|]. by right.
Defined.

(** *** Further facts *)

Lemma dict_get_None fieldnames key : ∀ r,
  key ∉ fieldnames → dict_get (dict_row fieldnames r) key = None.
Proof.
  induction fieldnames as [|k ks IH]; intros r Hin; [done|].
  apply not_elem_of_cons in Hin as [Hne Hin].
  assert (String.eqb k key = false) as Hk by (apply String.eqb_neq; congruence).
  destruct r; cbn [dict_row dict_get]; rewrite IH, Hk; done.
Qed.

(** X1: a row for which the geocoder finds nothing (it returns [None]) is
    written like a failed row: reading [location.longitude] raises inside
    the [try], and the message of that [AttributeError] goes to the address
    column.  [i] is the place of the row in the frame read from the
    input. *)
Theorem unmatched_row_written S w pin pout app content rows i r :
  bad_extension pin = false →
  fs w !! pin = Some content →
  read_frame content = Returned rows →
  rows !! i = Some r →
  geocode S i (series_to_string S r +:+ ", " +:+ app) = Returned None →
  ∃ written,
    fs (convert_string_to_coordinates S pin pout app w).2 !! pout
    = Some (coordinates_header :: written)
    ∧ written !! i = Some [series_to_string S r; ""; ""; "";
                           "'NoneType' object has no attribute 'longitude'"].
Proof.
  intros Hext Hin Hrows Hr Hgeo.
  destruct (convert_string_to_coordinates_run S w pin pout app content rows Hext Hin Hrows)
    as (w' & -> & Hfs & _).
  cbn [snd]. rewrite Hfs. destruct rows as [|r0 rows0]; [by rewrite lookup_nil in Hr|].
  rewrite lookup_insert_eq. eexists. split; [reflexivity|].
  rewrite list_lookup_imap, Hr. cbn. unfold output_row, row_query. by rewrite Hgeo.
Qed.

Lemma unmatched_row_written_atlantis :
  ∃ written,
    fs (convert_string_to_coordinates GeocodingExamples.stub "places.csv" "out.csv" ""
          (GeocodingExamples.disk
             [("places.csv", [["LOCATIONS"]; []; ["London"]; []; ["Atlantis"]])])).2
      !! "out.csv"
    = Some (coordinates_header :: written)
    ∧ written !! 1 = Some ["Atlantis"; ""; ""; "";
                           "'NoneType' object has no attribute 'longitude'"].
Proof.
  exact (unmatched_row_written GeocodingExamples.stub
           (GeocodingExamples.disk
              [("places.csv", [["LOCATIONS"]; []; ["London"]; []; ["Atlantis"]])])
           "places.csv" "out.csv" "" [["LOCATIONS"]; []; ["London"]; []; ["Atlantis"]]
           [["London"]; ["Atlantis"]] 1 ["Atlantis"]
           eq_refl eq_refl eq_refl eq_refl eq_refl).
Defined.

(** X2: when the header of the input of [convert_coordinates_to_address]
    has no [location] column, the first row that is not blank raises
    [KeyError] outside any [try]: the run ends there, no geocoder call was
    made, and the output file, already truncated, holds the header only. *)
Theorem missing_column_ends_run S w pin pout fieldnames r rows :
  bad_extension pin = false →
  pin ≠ pout →
  fs w !! pin = Some (fieldnames :: r :: rows) →
  r ≠ [] →
  "location" ∉ fieldnames →
  (convert_coordinates_to_address S pin pout w).1 = Raised (Exn "'location'")
  ∧ fs (convert_coordinates_to_address S pin pout w).2 !! pout = Some [address_header]
  ∧ reverse_queries (trace (convert_coordinates_to_address S pin pout w).2)
    = reverse_queries (trace w).
Proof.
  intros Hext Hne Hin Hr Hloc.
  unfold convert_coordinates_to_address. rewrite Hext.
  unfold open_read, open_write, writerow, reader_rows, log, mbind, M_bind.
  cbn. rewrite Hin. cbn.
  assert (pout ≠ pin) as Hne' by congruence.
  rewrite lookup_insert_eq, !lookup_insert_ne, Hin by done. cbn.
  destruct r as [|c cs]; [done|]. cbn [address_loop]. unfold getitem.
  rewrite (dict_get_None fieldnames "location" (c :: cs) Hloc).
  unfold raise. unfold mbind, M_bind at 1. cbn.
  rewrite insert_insert_eq, lookup_insert_eq. unfold reverse_queries.
  rewrite !omap_app. cbn. by rewrite !app_nil_r.
Qed.

Lemma missing_column_ends_run_places :
  (convert_coordinates_to_address GeocodingExamples.stub "places.csv" "out.csv"
     GeocodingExamples.places_again_disk).1
  = Raised (Exn "'location'")
  ∧ fs (convert_coordinates_to_address GeocodingExamples.stub "places.csv" "out.csv"
          GeocodingExamples.places_again_disk).2 !! "out.csv"
    = Some [address_header].
Proof.
  destruct (missing_column_ends_run GeocodingExamples.stub
              GeocodingExamples.places_again_disk
              "places.csv" "out.csv" ["LOCATIONS"] ["London"] [["Nowhere"]])
    as (Hraised & Hfile & _); try done.
  intros Hin. apply list_elem_of_In in Hin. vm_compute in Hin. intuition discriminate.
Defined.

(** *** Further facts about the two geocoding functions *)

(** X10: the extension check of the two geocoding functions looks at the
    text after the last dot of the path only: a path that ends in a dot and
    a dotless text is accepted when that text is csv and refused otherwise,
    whatever dots the folders before it have, and a path without any dot
    is accepted when it is the bare text csv. *)
Theorem extension_rule (p e : string) :
  contains "." e = false →
  bad_extension (p +:+ "." +:+ e) = negb (String.eqb e "csv")
  ∧ bad_extension e = negb (String.eqb e "csv").
Proof.
  intros He. unfold bad_extension. change ("." +:+ e) with (String "." e).
  rewrite split_append, last_item_app by apply split_not_nil.
  by rewrite (split_without _ _ He).
Qed.

Lemma extension_rule_versioned_folder :
  bad_extension "data/v1.2/places.csv" = false
  ∧ bad_extension "data/v1.2/places.txt" = true
  ∧ bad_extension "csv" = false.
Proof.
  destruct (extension_rule "data/v1.2/places" "csv" eq_refl) as [Hcsv Hbare].
  destruct (extension_rule "data/v1.2/places" "txt" eq_refl) as [Htxt _].
  split; [exact Hcsv|]. split; [exact Htxt|exact Hbare].
Defined.

Lemma calls_and_sleeps_steps S pout app (rows : csv_file) :
  calls_and_sleeps (mjoin (imap (step_events S pout app) rows))
  = rows ≫= λ r, [EvGeocode (series_to_string S r +:+ ", " +:+ app); EvSleep 1].
Proof.
  assert (∀ i r, calls_and_sleeps (step_events S pout app i r)
                 = [EvGeocode (series_to_string S r +:+ ", " +:+ app); EvSleep 1]) as Hstep.
  { intros i r. unfold step_events, calls_and_sleeps. by destruct (Nat.eqb i 0). }
  revert Hstep. generalize (step_events S pout app).
  induction rows as [|r rest IH]; intros f Hf; [reflexivity|].
  rewrite imap_cons. change (mjoin (?x :: ?l)) with (x ++ mjoin l).
  unfold calls_and_sleeps in *. rewrite omap_app, Hf, IH; [reflexivity|].
  intros i r'. apply Hf.
Qed.

Lemma address_loop_no_sleep S pout fieldnames rows : ∀ i w,
  sleeps (trace (address_loop S pout fieldnames i rows w).2) = sleeps (trace w).
Proof.
  induction rows as [|r rest IH]; intros i w; [reflexivity|].
  destruct r as [|c cs]; [apply IH|].
  cbn [address_loop]. unfold getitem.
  destruct (dict_get _ "location") as [loc|]; [|reflexivity].
  destruct (dict_get _ "lat") as [lat|]; [|reflexivity].
  destruct (dict_get _ "long") as [lon|]; [|reflexivity].
  unfold try_except, log, lift, writerow. unfold mbind, M_bind. cbn.
  destruct (reverse S i _) as [a|e]; cbn; rewrite IH; cbn;
    unfold sleeps; rewrite omap_app; cbn; by rewrite app_nil_r.
Qed.

(** X12: the forward geocoder is called once per row of the frame read
    from the input, and every call is followed by a pause of one second
    before the next call; the reverse geocoding loop never pauses. *)
Theorem pause_after_each_geocode S :
  (∀ w pin pout app content rows,
     bad_extension pin = false →
     fs w !! pin = Some content →
     read_frame content = Returned rows →
     calls_and_sleeps (trace (convert_string_to_coordinates S pin pout app w).2)
     = calls_and_sleeps (trace w)
       ++ (rows ≫= λ r, [EvGeocode (series_to_string S r +:+ ", " +:+ app); EvSleep 1]))
  ∧ (∀ w pin pout,
       sleeps (trace (convert_coordinates_to_address S pin pout w).2) = sleeps (trace w)).
Proof.
  split.
  - intros w pin pout app content rows Hext Hin Hrows.
    destruct (convert_string_to_coordinates_run S w pin pout app content rows Hext Hin Hrows)
      as (w' & -> & _ & Htr).
    cbn [snd]. rewrite Htr. unfold calls_and_sleeps at 1. rewrite !omap_app.
    fold (calls_and_sleeps (trace w)).
    fold (calls_and_sleeps (mjoin (imap (step_events S pout app) rows))).
    rewrite calls_and_sleeps_steps. cbn. by rewrite app_nil_r.
  - intros w2 pin2 pout2. unfold convert_coordinates_to_address.
    destruct (bad_extension pin2); [reflexivity|].
    unfold open_read, open_write, writerow, reader_rows, log, mbind, M_bind. cbn.
    destruct (fs w2 !! pin2) as [content|]; [|reflexivity]. cbn.
    set (w1 := World _ _).
    assert (sleeps (trace w1) = sleeps (trace w2)) as Hw1.
    { subst w1. cbn. unfold sleeps. rewrite !omap_app. cbn. by rewrite !app_nil_r. }
    assert (∀ f rs, sleeps (trace
              (let '(o, w') := address_loop S pout2 f 0 rs w1 in
               match o with
               | Returned _ =>
                   (Returned (), World (fs w') (trace w' ++ [EvPrint "Conversion complete."]))
               | Raised e => (Raised e, w')
               end).2) = sleeps (trace w2)) as Hloop.
    { intros f rs. pose proof (address_loop_no_sleep S pout2 f rs 0 w1) as Hl.
      destruct (address_loop S pout2 f 0 rs w1) as [[?|?] w']; cbn in *;
        [unfold sleeps in *; rewrite omap_app; cbn; rewrite app_nil_r|];
        by rewrite Hl. }
    change (<[pout2:=_]> _) with (fs w1).
    destruct (fs w1 !! pin2) as [[|f rs]|]; apply Hloop.
Qed.

(** X13: a row whose reverse-geocoding call returns is written with its
    three input fields and the text of what the call returned: the address
    of the location found, or the text None when nothing was found. *)
Theorem reverse_row_written S w pin pout fieldnames rows j r a :
  bad_extension pin = false →
  pin ≠ pout →
  fs w !! pin = Some (fieldnames :: rows) →
  "location" ∈ fieldnames → "lat" ∈ fieldnames → "long" ∈ fieldnames →
  filter (λ r, r ≠ []) rows !! j = Some r →
  reverse S j (coordinates_text fieldnames r) = Returned a →
  ∃ written,
    fs (convert_coordinates_to_address S pin pout w).2 !! pout
    = Some (address_header :: written)
    ∧ written !! j = Some [field (row_value fieldnames r "location");
                           field (row_value fieldnames r "lat");
                           field (row_value fieldnames r "long");
                           match a with Some loc => address loc | None => "None" end].
Proof.
  intros Hext Hne Hin H1 H2 H3 Hr Hrev.
  destruct (convert_coordinates_to_address_run S w pin pout fieldnames rows
              Hext Hne Hin H1 H2 H3) as (w' & -> & Hfs & _).
  cbn [snd]. rewrite Hfs, lookup_insert_eq. eexists. split; [reflexivity|].
  rewrite list_lookup_imap, Hr. cbn. unfold address_row, address_text. by rewrite Hrev.
Qed.

Lemma documented_row_value (r : list string) :
  row_value ["location"; "lat"; "long"] r "location" = r !! 0
  ∧ row_value ["location"; "lat"; "long"] r "lat" = r !! 1
  ∧ row_value ["location"; "lat"; "long"] r "long" = r !! 2.
Proof. by destruct r as [|a [|b [|c r]]]. Qed.

(** X14: with the documented header location,lat,long the string sent to
    the reverse geocoder for a row is its second field, a comma and a blank,
    and its third field, and the row is written with its first three fields
    in front; a field that a short row lacks is sent as the text None and
    written as the empty field, and what a long row has beyond the third
    field is dropped. *)
Theorem documented_layout_rows S w pin pout rows :
  bad_extension pin = false →
  pin ≠ pout →
  fs w !! pin = Some (["location"; "lat"; "long"] :: rows) →
  reverse_queries (trace (convert_coordinates_to_address S pin pout w).2)
  = reverse_queries (trace w)
    ++ ((λ r, fmt (r !! 1) +:+ ", " +:+ fmt (r !! 2)) <$> filter (λ r, r ≠ []) rows)
  ∧ ∃ written,
      fs (convert_coordinates_to_address S pin pout w).2 !! pout
      = Some (address_header :: written)
      ∧ Forall2 (λ r out, take 3 out = [field (r !! 0); field (r !! 1); field (r !! 2)]
                          ∧ length out = 4)
                (filter (λ r, r ≠ []) rows) written.
Proof.
  intros Hext Hne Hin.
  destruct (convert_coordinates_to_address_run S w pin pout _ rows Hext Hne Hin)
    as (w' & -> & Hfs & Htr); [set_solver..|].
  cbn [snd]. split.
  - rewrite Htr. f_equal. apply list_fmap_ext. intros i r _.
    unfold coordinates_text. by destruct (documented_row_value r) as (_ & -> & ->).
  - rewrite Hfs, lookup_insert_eq. eexists. split; [reflexivity|].
    apply Forall2_same_length_lookup. split; [by rewrite length_imap|].
    intros i r out Hr Hout. rewrite list_lookup_imap, Hr in Hout. cbn in Hout.
    injection Hout as <-. unfold address_row.
    by destruct (documented_row_value r) as (-> & -> & ->).
Qed.

(** X15: given the same path for input and output,
    [convert_coordinates_to_address] empties the file before it reads a row
    of it: the run returns without a call to the geocoder and the file holds
    the output header only. *)
Theorem same_path_loses_input S w p content :
  bad_extension p = false →
  fs w !! p = Some content →
  ∃ w', convert_coordinates_to_address S p p w = (Returned (), w')
    ∧ fs w' !! p = Some [address_header]
    ∧ reverse_queries (trace w') = reverse_queries (trace w).
Proof.
  intros Hext Hin. unfold convert_coordinates_to_address. rewrite Hext.
  unfold open_read, open_write, writerow, reader_rows, log, mbind, M_bind.
  cbn. rewrite Hin. cbn. rewrite !lookup_insert_eq. cbn.
  eexists. split; [reflexivity|]. cbn. split; [apply lookup_insert_eq|].
  unfold reverse_queries. rewrite !omap_app. cbn. by rewrite !app_nil_r.
Qed.


Lemma pause_after_each_geocode_places :
  calls_and_sleeps
    (trace (convert_string_to_coordinates GeocodingExamples.stub "places.csv" "out.csv" ""
              GeocodingExamples.gap_disk).2)
  = [EvGeocode "London, "; EvSleep 1; EvGeocode "Nowhere, "; EvSleep 1]
  ∧ sleeps (trace (convert_coordinates_to_address GeocodingExamples.stub "points.csv"
                     "out.csv" GeocodingExamples.points_disk).2) = [].
Proof.
  destruct (pause_after_each_geocode GeocodingExamples.stub) as [Hforward Hreverse].
  split.
  - exact (Hforward GeocodingExamples.gap_disk "places.csv" "out.csv" ""
             [["LOCATIONS"]; ["London"]; []; ["Nowhere"]] [["London"]; ["Nowhere"]]
             eq_refl eq_refl eq_refl).
  - exact (Hreverse GeocodingExamples.points_disk "points.csv" "out.csv").
Defined.

Lemma reverse_row_written_place_a :
  ∃ written,
    fs (convert_coordinates_to_address GeocodingExamples.stub "points.csv" "out.csv"
          GeocodingExamples.points_again_disk).2 !! "out.csv"
    = Some (address_header :: written)
    ∧ written !! 0
      = Some ["Place A"; "51.5"; "-0.125";
              "London, Greater London, England, United Kingdom"].
Proof.
  apply (reverse_row_written GeocodingExamples.stub GeocodingExamples.points_again_disk
           "points.csv" "out.csv" ["location"; "lat"; "long"]
           [["Place A"; "51.5"; "-0.125"]; ["Place B"; "40.7"; "-74.0"]]
           0 ["Place A"; "51.5"; "-0.125"] (Some GeocodingExamples.london));
    try reflexivity; try discriminate; apply list_elem_of_In; cbn; tauto.
Defined.

Lemma documented_layout_rows_short :
  reverse_queries
    (trace (convert_coordinates_to_address GeocodingExamples.stub "points.csv" "out.csv"
              GeocodingExamples.short_points_disk).2)
  = ["51.5, -0.125"; "48.8, None"]
  ∧ ∃ written,
      fs (convert_coordinates_to_address GeocodingExamples.stub "points.csv" "out.csv"
            GeocodingExamples.short_points_disk).2 !! "out.csv"
      = Some (address_header :: written)
      ∧ Forall2 (λ r out, take 3 out = [field (r !! 0); field (r !! 1); field (r !! 2)]
                          ∧ length out = 4)
                [["Place A"; "51.5"; "-0.125"]; ["Place C"; "48.8"]] written.
Proof.
  apply (documented_layout_rows GeocodingExamples.stub GeocodingExamples.short_points_disk
           "points.csv" "out.csv"
           [["Place A"; "51.5"; "-0.125"]; []; ["Place C"; "48.8"]]);
    [reflexivity|discriminate|reflexivity].
Defined.

Lemma same_path_loses_input_points :
  ∃ w', convert_coordinates_to_address GeocodingExamples.stub "points.csv" "points.csv"
          GeocodingExamples.points_disk = (Returned (), w')
    ∧ fs w' !! "points.csv" = Some [address_header]
    ∧ reverse_queries (trace w') = [].
Proof.
  exact (same_path_loses_input GeocodingExamples.stub GeocodingExamples.points_disk
           "points.csv" GeocodingExamples.points eq_refl eq_refl).
Defined.


End GeocodingFacts.

(** ** Facts about the boundary functions *)
Module UkGeogFacts.
Import Py PyFacts UkGeog.

Section Facts.
Context {geometry : Type} (S : services geometry).

(** *** Group keys, node rows and polygons *)

Lemma elem_of_group_keys (k : string) (keys : list string) :
  k ∈ group_keys keys ↔ k ∈ keys.
Proof.
  unfold group_keys. rewrite merge_sort_Permutation. apply elem_of_remove_dups.
Qed.

Lemma NoDup_group_keys (keys : list string) : NoDup (group_keys keys).
Proof.
  unfold group_keys. rewrite merge_sort_Permutation. apply NoDup_remove_dups.
Qed.

Lemma node_rows_geohash (df : list element) (r : node_row) :
  r ∈ node_rows S df → nr_geohash r = geohash_encode S (nr_lon r) (nr_lat r) 3.
Proof.
  unfold node_rows. rewrite list_elem_of_omap. intros (e & _ & He).
  destruct e; by simplify_eq.
Qed.

Lemma coordinates_frame_Returned (elements : list element) (rows : list node_row) :
  coordinates_frame S elements = Returned rows →
  rows = node_rows S (filtered elements) ∧ rows ≠ [].
Proof.
  unfold coordinates_frame. destruct (filtered elements) as [|e df]; [done|].
  destruct (node_rows S (e :: df)) as [|r rs]; [done|]. intros [= <-]. done.
Qed.

Lemma cluster_Returned (rows : list node_row) (polygons : list (polygon_row geometry)) :
  cluster S rows = Returned polygons →
  crs_known S crs = true ∧ polygons = hull S <$> dissolve S rows.
Proof. unfold cluster. destruct (crs_known S crs); [|done]. by intros [= <-]. Qed.

Lemma hull_dissolve_keys (rows : list node_row) :
  pg_geohash <$> (hull S <$> dissolve S rows) = group_keys (nr_geohash <$> rows).
Proof.
  unfold dissolve. rewrite <- !list_fmap_compose.
  rewrite <- (list_fmap_id (group_keys _)) at 2. by apply list_fmap_ext.
Qed.

(** C6: the source calls [geolib.geohash.encode(r["lon"], r["lat"], 3)]
    where the library takes [(lat, lon, precision)]: the key of a node row
    is the geohash of the point with the node's longitude for latitude and
    its latitude for longitude, not the geohash of the node's own point.
    The grouping itself is by that key: [polygons] has exactly one row per key
    that occurs (no key twice, none without a node), and the geometry of
    that row is [convex_hull] of the union of the points of all the nodes
    with that key, so two nodes with the same key are in the same polygon.
    [convert_string_to_boundary] returns these polygons, and the two UK
    functions print and join the same ones. *)
Theorem nodes_clustered_by_transposed_geohash (elements : list element)
  (rows : list node_row) (polygons : list (polygon_row geometry)) :
  (∀ lat lon, geohash_encode S lat lon 3 = Geolib.encode lat lon 3) →
  coordinates_frame S elements = Returned rows →
  cluster S rows = Returned polygons →
  (∀ r, r ∈ rows → nr_geohash r = Geolib.encode (nr_lon r) (nr_lat r) 3)
  ∧ NoDup (pg_geohash <$> polygons)
  ∧ (∀ p, p ∈ polygons → ∃ r, r ∈ rows ∧ nr_geohash r = pg_geohash p)
  ∧ (∀ r, r ∈ rows →
       PolygonRow (nr_geohash r)
         (convex_hull S
            (unary_union S ((λ n, point S (nr_lon n) (nr_lat n))
                            <$> filter (λ n, nr_geohash n = nr_geohash r) rows)))
         (Some "node")
         (Some (length (filter (λ n, nr_geohash n = nr_geohash r) rows)))
       ∈ polygons)
  ∧ (∀ country location w,
       overpass_query S 0 (boundary_query "    " country location) = Returned elements →
       (convert_string_to_boundary S country location true w).1
       = Returned (Polygons polygons))
  ∧ (∀ location p1 p2 output_geog w v w',
       overpass_query S 0 (boundary_query "    " "United Kingdom" location)
       = Returned elements →
       convert_string_to_uk_geog S location p1 p2 output_geog w = (Returned v, w') →
       EvPrintPolygons true polygons ∈ w')
  ∧ (∀ output_geog location boundary_file lookup acc w acc' w',
       try_location S output_geog location boundary_file lookup elements acc w
       = (Returned acc', w') →
       EvPrintPolygons false (drop_counts <$> polygons) ∈ w').
Proof.
  intros Hgeolib Hframe Hcluster.
  destruct (coordinates_frame_Returned _ _ Hframe) as [Hrows _].
  destruct (cluster_Returned _ _ Hcluster) as [Hcrs ->].
  split; [|split; [|split; [|split; [|split; [|split]]]]].
  - intros r Hr. rewrite Hrows in Hr. rewrite <- Hgeolib. by eapply node_rows_geohash.
  - rewrite hull_dissolve_keys. apply NoDup_group_keys.
  - intros p Hp.
    assert (pg_geohash p ∈ pg_geohash <$> (hull S <$> dissolve S rows)) as Hk
      by (by apply list_elem_of_fmap_2).
    rewrite hull_dissolve_keys, elem_of_group_keys in Hk.
    apply list_elem_of_fmap in Hk as (r & Hk & Hr). eauto.
  - intros r Hr. unfold dissolve. rewrite <- list_fmap_compose.
    apply list_elem_of_fmap. exists (nr_geohash r). split.
    + cbn. unfold hull, group. cbn. do 2 f_equal.
      destruct (filter _ rows) as [|n ns] eqn:Hg; [|done].
      exfalso. eapply (filter_nil_not_elem_of _ _ r); [exact Hg|done|done].
    + apply elem_of_group_keys. by apply list_elem_of_fmap_2.
  - intros country location w Hq. unfold convert_string_to_boundary, query, log, lift.
    unfold_M. cbn. by rewrite Hq, Hframe, Hcluster.
  - intros location p1 p2 og w v w' Hq.
    unfold convert_string_to_uk_geog, uk_geog_join, query, read_file, read_csv, project,
      log, lift.
    unfold_M. cbn. rewrite Hq, Hframe, Hcluster. cbn.
    destruct (read_boundary_file S p1); [|done].
    destruct (read_lookup_table S p2); [|done]. rewrite Hcrs. cbn.
    intros Hrun.
    assert (∀ (w0 : list (event geometry)), w' = w0 ++ [EvPrint "Performing spatial join..."] →
            EvPrintPolygons true (hull S <$> dissolve S rows) ∈ w0 →
            EvPrintPolygons true (hull S <$> dissolve S rows) ∈ w') as Hin
      by (intros w0 -> ?; set_solver).
    unfold uk_geog_dispatch, mret, M_ret, lift, mbind, M_bind in Hrun.
    repeat case_match; simplify_eq; (eapply Hin; [reflexivity|set_solver]).
  - intros og location bf lk acc w acc' w'.
    unfold try_location, log, lift. unfold_M. cbn.
    rewrite Hframe, Hcluster. cbn. intros [= _ <-]. set_solver.
Qed.

(** *** The dispatch on [output_geog] *)

Lemma NoDup_drop_duplicates {A} `{EqDecision A} (l : list A) : NoDup (drop_duplicates l).
Proof. unfold drop_duplicates. rewrite reverse_Permutation. apply NoDup_remove_dups. Qed.

Lemma elem_of_drop_duplicates {A} `{EqDecision A} (l : list A) (x : A) :
  x ∈ drop_duplicates l ↔ x ∈ l.
Proof.
  unfold drop_duplicates. by rewrite elem_of_reverse, elem_of_remove_dups, elem_of_reverse.
Qed.

(** C1: what [convert_string_to_uk_geog] returns once the spatial join is
    made.  ['lsoa'], ['msoa'] and ['la'] return the code and name pairs of
    the join, each pair once; ['raw'] returns the join itself; ['overview']
    returns no frame: the branch ends without a [return], so the call
    returns [None], unless building the frame raised. *)
Theorem uk_geog_returns_by_option (location p1 p2 : string)
  (w w' : list (event geometry)) (join_result : list join_row) :
  uk_geog_join S location p1 p2 w = (Returned join_result, w') →
  convert_string_to_uk_geog S location p1 p2 "lsoa" w
  = (Returned (Some (CodeFrame "LSOA21CD" "LSOA21NM" (unique_lsoa_codes join_result))), w')
  ∧ convert_string_to_uk_geog S location p1 p2 "msoa" w
    = (Returned (Some (CodeFrame "MSOA21CD" "MSOA21NM" (unique_msoa_codes join_result))), w')
  ∧ convert_string_to_uk_geog S location p1 p2 "la" w
    = (Returned (Some (CodeFrame "LAD22CD" "LAD22NM" (unique_la_codes join_result))), w')
  ∧ convert_string_to_uk_geog S location p1 p2 "raw" w
    = (Returned (Some (JoinFrame join_result)), w')
  ∧ (convert_string_to_uk_geog S location p1 p2 "overview" w = (Returned None, w')
     ∨ ∃ e, convert_string_to_uk_geog S location p1 p2 "overview" w = (Raised e, w'))
  ∧ (NoDup (unique_lsoa_codes join_result)
     ∧ ∀ p, p ∈ unique_lsoa_codes join_result ↔ p ∈ lsoa_pair <$> join_result)
  ∧ (NoDup (unique_msoa_codes join_result)
     ∧ ∀ p, p ∈ unique_msoa_codes join_result ↔ p ∈ msoa_pair <$> join_result)
  ∧ (NoDup (unique_la_codes join_result)
     ∧ ∀ p, p ∈ unique_la_codes join_result ↔ p ∈ la_pair <$> join_result).
Proof.
  intros Hjoin. unfold convert_string_to_uk_geog. unfold mbind, M_bind at 1 2 3 4 5 6.
  rewrite Hjoin. repeat split;
    try apply NoDup_drop_duplicates; try (by apply elem_of_drop_duplicates).
  unfold uk_geog_dispatch, lift. cbn. unfold_M.
  destruct (frame_of_frames S _ _ _); eauto.
Qed.

Lemma locations_loop_any_option (og og' : string) bf lk (locs : list string) :
  ∀ n acc acc' (w : list (event geometry)),
    forget (locations_loop S og bf lk n locs acc w).1
    = forget (locations_loop S og' bf lk n locs acc' w).1
    ∧ (locations_loop S og bf lk n locs acc w).2
      = (locations_loop S og' bf lk n locs acc' w).2.
Proof.
  induction locs as [|location rest IH]; intros n acc acc' w; [done|].
  cbn [locations_loop]. unfold location_step, try_location, try_except, query, log, lift.
  unfold_M. cbn.
  destruct (overpass_query S n _) as [elements|e]; [|done].
  destruct (coordinates_frame S elements) as [rows|e]; cbn; [|apply IH].
  destruct (cluster S rows) as [polygons|e]; cbn; apply IH.
Qed.

(** With an [output_geog] that is none of the five options, each of the
    two UK functions does what it does for ['raw']: the same queries, reads
    and prints, in the same order, and it raises only where that run
    raises; where that run returns its frame, this one returns [None]. *)
Lemma unknown_option_as_raw (output_geog location p1 p2 : string)
  (locations_list : list string) (w : list (event geometry)) :
  output_geog ≠ "lsoa" → output_geog ≠ "msoa" → output_geog ≠ "la" →
  output_geog ≠ "overview" → output_geog ≠ "raw" →
  convert_string_to_uk_geog S location p1 p2 output_geog w
  = (match (convert_string_to_uk_geog S location p1 p2 "raw" w).1 with
     | Returned _ => Returned None
     | Raised e => Raised e
     end,
     (convert_string_to_uk_geog S location p1 p2 "raw" w).2)
  ∧ convert_list_to_uk_geog S locations_list p1 p2 output_geog w
    = (match (convert_list_to_uk_geog S locations_list p1 p2 "raw" w).1 with
       | Returned _ => Returned None
       | Raised e => Raised e
       end,
       (convert_list_to_uk_geog S locations_list p1 p2 "raw" w).2).
Proof.
  intros H1 H2 H3 H4 H5.
  apply String.eqb_neq in H1, H2, H3, H4, H5. split.
  - unfold convert_string_to_uk_geog. unfold_M.
    destruct (uk_geog_join S location p1 p2 w) as [[join_result|e] w']; [|done].
    unfold uk_geog_dispatch. by rewrite H1, H2, H3, H4, H5.
  - unfold convert_list_to_uk_geog, read_file, read_csv, project, log, lift.
    unfold_M. cbn.
    destruct (read_boundary_file S p1) as [bf|e]; [|done].
    destruct (crs_known S crs); [|done].
    destruct (read_lookup_table S p2) as [lk|e]; [|done].
    match goal with |- context [locations_loop S output_geog ?bf ?lk 0 _ _ ?w1] =>
      destruct (locations_loop_any_option output_geog "raw" bf lk locations_list
                  0 no_results no_results w1) as [Ho Hw];
      destruct (locations_loop S output_geog bf lk 0 locations_list no_results w1)
        as [[acc|e] w2];
      destruct (locations_loop S "raw" bf lk 0 locations_list no_results w1)
        as [[acc'|e'] w2'] end;
      cbn in *; simplify_eq; [|done].
    unfold list_dispatch. by rewrite H1, H2, H3, H4, H5.
Qed.

(** *** The loop over the locations *)

Lemma location_step_returns og bf lk n location acc (w : list (event geometry)) elements :
  overpass_query S n (list_query location) = Returned elements →
  ∃ acc' w', location_step S og bf lk n location acc w = (Returned acc', w')
    ∧ queries w' = queries w ++ [list_query location].
Proof.
  intros Hq. unfold location_step, try_location, try_except, query, log, lift.
  unfold_M. cbn. fold (list_query location). rewrite Hq.
  unfold queries.
  destruct (coordinates_frame S elements) as [rows|e]; cbn;
    [destruct (cluster S rows) as [polygons|e]; cbn|];
    do 2 eexists; (split; [reflexivity|]);
    rewrite ?omap_app; cbn; by rewrite ?app_nil_r.
Qed.

Lemma locations_loop_returns og bf lk (locs : list string) :
  ∀ n acc (w : list (event geometry)),
    (∀ i location, locs !! i = Some location →
       ∃ elements, overpass_query S (n + i) (list_query location) = Returned elements) →
    ∃ acc' w', locations_loop S og bf lk n locs acc w = (Returned acc', w')
      ∧ queries w' = queries w ++ (list_query <$> locs).
Proof.
  induction locs as [|location rest IH]; intros n acc w Hq.
  - exists acc, w. cbn. by rewrite app_nil_r.
  - destruct (Hq 0 location eq_refl) as [elements Hel]. rewrite Nat.add_0_r in Hel.
    destruct (location_step_returns og bf lk n location acc w elements Hel)
      as (acc1 & w1 & Hstep & Hw1).
    destruct (IH (Datatypes.S n) acc1 w1) as (acc' & w' & Hloop & Hw').
    { intros i l Hi. replace (Datatypes.S n + i) with (n + Datatypes.S i) by lia.
      by apply Hq. }
    exists acc', w'. cbn [locations_loop]. unfold mbind, M_bind at 1.
    rewrite Hstep, Hloop. split; [reflexivity|].
    rewrite Hw', Hw1, <- app_assoc. reflexivity.
Qed.

(** C3, amended: in [convert_list_to_uk_geog] the query of a location
    stands before the [try]; everything after it is inside.  So when the
    files are read and every query returns, the run returns, having queried
    every location of the list in order; and a location whose query
    returned and whose processing then raised is skipped: the frames
    accumulated so far are kept as they were, and the line
    [Error. Likely no polygons found for] with the location is printed
    after what the processing had printed. *)
Theorem failed_location_is_skipped (output_geog p1 p2 : string)
  (locations_list : list string) (w : list (event geometry)) bf lk :
  read_boundary_file S p1 = Returned bf →
  crs_known S crs = true →
  read_lookup_table S p2 = Returned lk →
  (∀ i location, locations_list !! i = Some location →
     ∃ elements, overpass_query S i (list_query location) = Returned elements) →
  (∃ v w', convert_list_to_uk_geog S locations_list p1 p2 output_geog w = (Returned v, w')
     ∧ queries w' = queries w ++ (list_query <$> locations_list))
  ∧ (∀ n location boundary_file lookup acc elements e (w1 w2 : list (event geometry)),
       overpass_query S n (list_query location) = Returned elements →
       try_location S output_geog location boundary_file lookup elements acc
         (w1 ++ [EvQuery (list_query location)]) = (Raised e, w2) →
       location_step S output_geog boundary_file lookup n location acc w1
       = (Returned acc,
          w2 ++ [EvPrint ("Error. Likely no polygons found for " +:+ location)])).
Proof.
  intros Hbf Hcrs Hlk Hq. split.
  - unfold convert_list_to_uk_geog, read_file, read_csv, project, log, lift.
    unfold_M. cbn. rewrite Hbf, Hcrs, Hlk.
    match goal with |- context [locations_loop S output_geog ?bf ?lk 0 _ _ ?w1] =>
      destruct (locations_loop_returns output_geog bf lk locations_list 0 no_results w1 Hq)
        as (acc & w' & -> & Hw') end.
    do 2 eexists. split; [reflexivity|]. rewrite Hw'. unfold queries.
    rewrite !omap_app. cbn. by rewrite !app_nil_r.
  - intros n location boundary_file lookup acc elements e w1 w2 Hel Htry.
    unfold location_step, query, try_except, log, lift. unfold_M. cbn.
    fold (list_query location). rewrite Hel. unfold log in Htry. by rewrite Htry.
Qed.

(** *** Further facts *)

(** X3: a location with no element in the answer of Overpass (or none
    without tags) makes [convert_string_to_boundary] and
    [convert_string_to_uk_geog] raise [KeyError: 'type'] right after the
    query, before any file is read: here nothing catches what the loop of
    [convert_list_to_uk_geog] catches. *)
Theorem no_element_raises (country location p1 p2 output_geog : string)
  (return_geometry : bool) (elements : list element) (w : list (event geometry)) :
  filtered elements = [] →
  (overpass_query S 0 (boundary_query "    " country location) = Returned elements →
   convert_string_to_boundary S country location return_geometry w
   = (Raised (Exn "'type'"), w ++ [EvQuery (boundary_query "    " country location)]))
  ∧ (overpass_query S 0 (boundary_query "    " "United Kingdom" location)
     = Returned elements →
     convert_string_to_uk_geog S location p1 p2 output_geog w
     = (Raised (Exn "'type'"),
        w ++ [EvQuery (boundary_query "    " "United Kingdom" location)])).
Proof.
  intros Hnone. split; intros Hq.
  - unfold convert_string_to_boundary, query, log, lift. unfold_M. cbn.
    rewrite Hq. unfold coordinates_frame. by rewrite Hnone.
  - unfold convert_string_to_uk_geog, uk_geog_join, query, log, lift. unfold_M. cbn.
    rewrite Hq. unfold coordinates_frame. by rewrite Hnone.
Qed.

(** *** Further facts about the boundary functions *)

Lemma node_rows_filtered (elements : list element) :
  node_rows S (filtered elements) = untagged_nodes S elements.
Proof.
  unfold node_rows, filtered, untagged_nodes.
  induction elements as [|e els IH]; [done|].
  rewrite filter_cons. destruct e as [id lat lon [|]|id [|]|id [|]]; cbn;
    rewrite ?decide_True, ?decide_False by done; cbn; by rewrite ?IH.
Qed.

Lemma sum_indicator (x : string) (ks : list string) :
  NoDup ks → x ∈ ks →
  sum_list ((λ k, if decide (x = k) then 1 else 0) <$> ks) = 1.
Proof.
  induction 1 as [|k ks Hk Hnd IH]; [by intros ?%elem_of_nil|].
  intros [->|Hin]%elem_of_cons; cbn.
  - rewrite decide_True by done. f_equal.
    clear IH Hnd. induction ks as [|k' ks IH]; [done|]. cbn.
    apply not_elem_of_cons in Hk as [Hne Hk]. rewrite decide_False by done. by apply IH.
  - rewrite decide_False by (intros ->; done). by apply IH.
Qed.

Lemma sum_group_lengths {A} (key : A → string) (ks : list string) (rows : list A) :
  NoDup ks → (∀ r, r ∈ rows → key r ∈ ks) →
  sum_list ((λ k, length (filter (λ r, key r = k) rows)) <$> ks) = length rows.
Proof.
  intros Hnd. induction rows as [|r rows IH]; intros Hin.
  - cbn. clear. induction ks as [|k ks IHk]; [done|]. cbn. apply IHk.
  - assert (sum_list ((λ k, length (filter (λ r, key r = k) (r :: rows))) <$> ks)
            = sum_list ((λ k, if decide (key r = k) then 1 else 0) <$> ks)
              + sum_list ((λ k, length (filter (λ r, key r = k) rows)) <$> ks)) as ->.
    { clear. induction ks as [|k ks IHk]; [done|].
      cbn [fmap list_fmap sum_list sum_list_with].
      rewrite filter_cons. destruct (decide (key r = k)); cbn; cbn in IHk; lia. }
    rewrite IH by (intros r' ?; apply Hin; by right).
    rewrite (sum_indicator (key r) ks Hnd) by (apply Hin; by left). done.
Qed.

(** X6: the rows of [coordinates_df] are the nodes of the answer that carry
    no tags, in the answer's order (ways, relations and tagged nodes are
    left out), and the [id] counts of the polygons add up to the number of
    these rows: every such node is counted in one polygon and in one only.
    With [return_geometry=False] [convert_string_to_boundary] returns these
    rows. *)
Theorem every_node_counted_once (elements : list element)
  (rows : list node_row) (polygons : list (polygon_row geometry)) :
  coordinates_frame S elements = Returned rows →
  cluster S rows = Returned polygons →
  rows = untagged_nodes S elements
  ∧ sum_list (default 0 ∘ pg_id <$> polygons) = length rows
  ∧ (∀ country location w,
       overpass_query S 0 (boundary_query "    " country location) = Returned elements →
       (convert_string_to_boundary S country location false w).1
       = Returned (Coordinates rows)).
Proof.
  intros Hframe Hcluster.
  destruct (coordinates_frame_Returned _ _ Hframe) as [Hrows _].
  destruct (cluster_Returned _ _ Hcluster) as [Hcrs ->].
  split; [by rewrite Hrows, node_rows_filtered|]. split.
  - unfold dissolve. rewrite <- !list_fmap_compose.
    rewrite <- (sum_group_lengths nr_geohash (group_keys (nr_geohash <$> rows)) rows).
    + f_equal.
    + apply NoDup_group_keys.
    + intros r Hr. apply elem_of_group_keys. by apply list_elem_of_fmap_2.
  - intros country location w Hq. unfold convert_string_to_boundary, query, log, lift.
    unfold_M. cbn. by rewrite Hq, Hframe, Hcluster.
Qed.

(** *** The merge and the spatial join *)

Lemma elem_of_merge (bf : list (string * geometry)) (lk : list lookup_row) (row : lsoa_row) :
  row ∈ merge bf lk ↔
  (lr_code row, lr_geometry row) ∈ bf
  ∧ match lr_lookup row with
    | Some r => r ∈ lk ∧ LSOA21CD r = lr_code row
    | None => ∀ r, r ∈ lk → LSOA21CD r ≠ lr_code row
    end.
Proof.
  unfold merge. rewrite list_elem_of_bind. split.
  - intros ([code g] & Hrow & Hin).
    destruct (filter _ lk) as [|r0 found] eqn:Hf.
    + apply list_elem_of_singleton in Hrow as ->. cbn. split; [done|].
      intros r Hr Heq. by eapply (filter_nil_not_elem_of _ _ r).
    + rewrite <- Hf in Hrow. apply list_elem_of_fmap in Hrow as (r & -> & Hr).
      apply list_elem_of_filter in Hr as [Heq Hr]. by cbn.
  - intros [Hin Hlk]. exists (lr_code row, lr_geometry row). split; [|done].
    destruct row as [code g [r|]]; cbn in *.
    + destruct Hlk as [Hr Heq].
      assert (r ∈ filter (λ r, LSOA21CD r = code) lk) as Hf
        by (by apply list_elem_of_filter).
      destruct (filter _ lk) as [|r0 found] eqn:E; [by apply elem_of_nil in Hf|].
      by apply (list_elem_of_fmap_2 (λ r, LsoaRow code g (Some r)) (r0 :: found) r).
    + destruct (filter _ lk) as [|r0 found] eqn:E; [by apply list_elem_of_singleton|].
      assert (r0 ∈ filter (λ r, LSOA21CD r = code) lk) as Hf by (rewrite E; by left).
      apply list_elem_of_filter in Hf as [Heq Hr]. by destruct (Hlk r0 Hr).
Qed.

Lemma elem_of_sjoin (left : list lsoa_row) (polygons : list (polygon_row geometry))
  (j : join_row) :
  j ∈ sjoin S left polygons ↔
  jr_left j ∈ left
  ∧ polygons !! jr_index_right j = Some (jr_right j)
  ∧ intersects S (lr_geometry (jr_left j)) (pg_geometry (jr_right j)) = true.
Proof.
  unfold sjoin. rewrite list_elem_of_bind. split.
  - intros (l & Hj & Hl). apply list_elem_of_omap in Hj as ([i p] & Hip & Hsome).
    apply elem_of_lookup_imap in Hip as (i' & p' & [= -> ->] & Hp).
    destruct (intersects S _ _) eqn:Hint; [|done]. injection Hsome as <-. by cbn.
  - intros (Hl & Hp & Hint). exists (jr_left j). split; [|done].
    apply list_elem_of_omap. exists (jr_index_right j, jr_right j). split.
    + apply elem_of_lookup_imap. eauto.
    + rewrite Hint. by destruct j.
Qed.

Lemma merge_project (f : geometry → geometry) (bf : list (string * geometry))
  (lk : list lookup_row) :
  merge ((λ r, (r.1, f r.2)) <$> bf) lk
  = (λ r, LsoaRow (lr_code r) (f (lr_geometry r)) (lr_lookup r)) <$> merge bf lk.
Proof.
  unfold merge. induction bf as [|[code g] bf IH]; [done|].
  rewrite fmap_cons, !bind_cons, fmap_app, IH. f_equal. cbn.
  destruct (filter _ lk) as [|r0 found]; [done|].
  cbn. f_equal. clear. induction found as [|x xs IHx]; cbn; [done|by f_equal].
Qed.

Lemma sjoin_drop_counts (left : list lsoa_row) (polygons : list (polygon_row geometry)) :
  sjoin S left (drop_counts <$> polygons)
  = (λ j, JoinRow (jr_left j) (jr_index_right j) (drop_counts (jr_right j)))
    <$> sjoin S left polygons.
Proof.
  unfold sjoin. induction left as [|l left IH]; [done|].
  rewrite !bind_cons, fmap_app, IH. f_equal. clear IH.
  rewrite imap_fmap.
  change (imap (λ n, pair n ∘ drop_counts) polygons)
    with (imap (λ n p, (id n, drop_counts p)) polygons).
  change (imap pair polygons) with (imap (λ n p, (id n, p)) polygons).
  generalize (@id nat).
  induction polygons as [|p ps IHp]; intros h; [done|].
  rewrite !imap_cons. cbn. destruct (intersects S _ _); cbn; f_equal;
    apply (IHp (h ∘ Datatypes.S)).
Qed.

Lemma uk_geog_join_run (location p1 p2 : string) (w : list (event geometry))
  elements rows polygons bf lk :
  overpass_query S 0 (boundary_query "    " "United Kingdom" location) = Returned elements →
  coordinates_frame S elements = Returned rows →
  cluster S rows = Returned polygons →
  read_boundary_file S p1 = Returned bf →
  read_lookup_table S p2 = Returned lk →
  ∃ w', uk_geog_join S location p1 p2 w
        = (Returned (sjoin S (projected S (merge bf lk)) polygons), w').
Proof.
  intros Hq Hframe Hcluster Hbf Hlk.
  destruct (cluster_Returned _ _ Hcluster) as [Hcrs _].
  unfold uk_geog_join, query, read_file, read_csv, project, log, lift.
  unfold_M. cbn. rewrite Hq, Hframe, Hcluster. cbn. rewrite Hbf, Hlk, Hcrs. cbn.
  eexists. reflexivity.
Qed.

Lemma merge_has_row (bf : list (string * geometry)) (lk : list lookup_row) code g :
  (code, g) ∈ bf → ∃ found, LsoaRow code g found ∈ merge bf lk.
Proof.
  intros Hin. destruct (filter (λ r, LSOA21CD r = code) lk) as [|r0 found] eqn:E.
  - exists None. apply elem_of_merge. split; [done|]. cbn.
    intros r Hr Heq. by eapply (filter_nil_not_elem_of _ _ r).
  - exists (Some r0). apply elem_of_merge. split; [done|]. cbn.
    assert (r0 ∈ filter (λ r, LSOA21CD r = code) lk) as Hf by (rewrite E; by left).
    by apply list_elem_of_filter in Hf as [Heq Hr].
Qed.

Lemma uk_geog_codes_run (location p1 p2 : string)
  (w w' : list (event geometry)) (join_result : list join_row) :
  uk_geog_join S location p1 p2 w = (Returned join_result, w') →
  convert_string_to_uk_geog S location p1 p2 "lsoa" w
  = (Returned (Some (CodeFrame "LSOA21CD" "LSOA21NM" (unique_lsoa_codes join_result))), w')
  ∧ convert_string_to_uk_geog S location p1 p2 "msoa" w
    = (Returned (Some (CodeFrame "MSOA21CD" "MSOA21NM" (unique_msoa_codes join_result))), w')
  ∧ convert_string_to_uk_geog S location p1 p2 "la" w
    = (Returned (Some (CodeFrame "LAD22CD" "LAD22NM" (unique_la_codes join_result))), w').
Proof.
  intros Hjoin. unfold convert_string_to_uk_geog. unfold mbind, M_bind at 1 2 3.
  by rewrite Hjoin.
Qed.

(** X7: the LSOA codes that [convert_string_to_uk_geog] returns for
    ['lsoa'] are the codes of the boundary file whose geometry, projected to
    the CRS of the polygons, intersects one of the polygons of the location
    (by the predicate of the spatial join): an LSOA that meets no polygon is
    not listed, and one that meets a polygon is, whether or not the lookup
    table knows its code. *)
Theorem lsoa_listed_iff_intersects (location p1 p2 : string) (w : list (event geometry))
  elements rows polygons bf lk :
  overpass_query S 0 (boundary_query "    " "United Kingdom" location) = Returned elements →
  coordinates_frame S elements = Returned rows →
  cluster S rows = Returned polygons →
  read_boundary_file S p1 = Returned bf →
  read_lookup_table S p2 = Returned lk →
  ∃ w' listed,
    convert_string_to_uk_geog S location p1 p2 "lsoa" w
    = (Returned (Some (CodeFrame "LSOA21CD" "LSOA21NM" listed)), w')
    ∧ ∀ code, (∃ name, (Some code, name) ∈ listed)
              ↔ ∃ g p, (code, g) ∈ bf ∧ p ∈ polygons
                       ∧ intersects S (to_crs S crs g) (pg_geometry p) = true.
Proof.
  intros Hq Hframe Hcluster Hbf Hlk.
  destruct (uk_geog_join_run location p1 p2 w _ _ _ _ _ Hq Hframe Hcluster Hbf Hlk)
    as [w' Hjoin].
  destruct (uk_geog_codes_run _ _ _ _ _ _ Hjoin) as (Hlsoa & _).
  exists w', (unique_lsoa_codes (sjoin S (projected S (merge bf lk)) polygons)).
  split; [exact Hlsoa|]. intros code. unfold unique_lsoa_codes. split.
  - intros (name & Hin). apply elem_of_drop_duplicates, list_elem_of_fmap in Hin
      as (j & Hpair & Hj).
    apply elem_of_sjoin in Hj as (Hl & Hp & Hint).
    apply list_elem_of_fmap in Hl as (l0 & Hl0 & Hmerge).
    apply elem_of_merge in Hmerge as [Hbfin _].
    unfold lsoa_pair in Hpair. rewrite Hl0 in Hpair, Hint. cbn in Hpair, Hint.
    injection Hpair as -> _.
    exists (lr_geometry l0), (jr_right j). split; [done|]. split; [|done].
    by eapply list_elem_of_lookup_2.
  - intros (g & p & Hbfin & Hp & Hint).
    destruct (merge_has_row bf lk code g Hbfin) as [found Hrow].
    apply list_elem_of_lookup in Hp as [i Hi].
    exists (LSOA21NM <$> found). apply elem_of_drop_duplicates, list_elem_of_fmap.
    exists (JoinRow (LsoaRow code (to_crs S crs g) found) i p). split; [done|].
    apply elem_of_sjoin. cbn. split; [|done].
    apply list_elem_of_fmap. by exists (LsoaRow code g found).
Qed.

(** X8: an LSOA of the boundary file whose code the lookup table lacks is
    kept by the left merge: when it intersects a polygon it is listed under
    ['lsoa'] with its code and no name, and it puts a row with neither code
    nor name into the frames of ['msoa'] and ['la']. *)
Theorem unknown_code_gives_nan_rows (location p1 p2 : string) (w : list (event geometry))
  elements rows polygons bf lk code g p :
  overpass_query S 0 (boundary_query "    " "United Kingdom" location) = Returned elements →
  coordinates_frame S elements = Returned rows →
  cluster S rows = Returned polygons →
  read_boundary_file S p1 = Returned bf →
  read_lookup_table S p2 = Returned lk →
  (code, g) ∈ bf →
  (∀ r, r ∈ lk → LSOA21CD r ≠ code) →
  p ∈ polygons →
  intersects S (to_crs S crs g) (pg_geometry p) = true →
  ∃ w' lsoa msoa la,
    convert_string_to_uk_geog S location p1 p2 "lsoa" w
    = (Returned (Some (CodeFrame "LSOA21CD" "LSOA21NM" lsoa)), w')
    ∧ convert_string_to_uk_geog S location p1 p2 "msoa" w
      = (Returned (Some (CodeFrame "MSOA21CD" "MSOA21NM" msoa)), w')
    ∧ convert_string_to_uk_geog S location p1 p2 "la" w
      = (Returned (Some (CodeFrame "LAD22CD" "LAD22NM" la)), w')
    ∧ (Some code, None) ∈ lsoa ∧ (None, None) ∈ msoa ∧ (None, None) ∈ la.
Proof.
  intros Hq Hframe Hcluster Hbf Hlk Hbfin Hnone Hp Hint.
  destruct (uk_geog_join_run location p1 p2 w _ _ _ _ _ Hq Hframe Hcluster Hbf Hlk)
    as [w' Hjoin].
  destruct (uk_geog_codes_run _ _ _ _ _ _ Hjoin) as (Hlsoa & Hmsoa & Hla).
  do 4 eexists. split; [exact Hlsoa|]. split; [exact Hmsoa|]. split; [exact Hla|].
  apply list_elem_of_lookup in Hp as [i Hi].
  assert (JoinRow (LsoaRow code (to_crs S crs g) None) i p
          ∈ sjoin S (projected S (merge bf lk)) polygons) as Hj.
  { apply elem_of_sjoin. cbn. split; [|done].
    apply list_elem_of_fmap. exists (LsoaRow code g None). split; [done|].
    by apply elem_of_merge. }
  unfold unique_lsoa_codes, unique_msoa_codes, unique_la_codes.
  rewrite !elem_of_drop_duplicates.
  split; [|split]; apply list_elem_of_fmap; (eexists; split; [|exact Hj]; done).
Qed.

(** *** The overview of a location *)

Lemma drop_duplicates_nil {A} `{EqDecision A} (l : list A) :
  drop_duplicates l = [] ↔ l = [].
Proof.
  split; [|by intros ->]. intros Hnil. destruct l as [|x l]; [done|].
  assert (x ∈ drop_duplicates (x :: l)) as Hx by (apply elem_of_drop_duplicates; by left).
  rewrite Hnil in Hx. by apply elem_of_nil in Hx.
Qed.

Lemma merge_on_location_same {A} (loc : string) (a : list A) (b : list pair_row) :
  b ≠ [] →
  merge_on_location (pair loc <$> a) (pair loc <$> b)
  = pair loc <$> (a ≫= λ x, pair x <$> b).
Proof.
  intros Hb. unfold merge_on_location.
  assert (filter (λ r : string * pair_row, r.1 = loc) (pair loc <$> b) = pair loc <$> b) as Hf.
  { clear. induction b as [|y b IH]; [done|].
    rewrite fmap_cons, filter_cons, decide_True by done. by rewrite IH. }
  induction a as [|x a IH]; [done|].
  rewrite fmap_cons, !bind_cons, fmap_app, IH. f_equal. cbn. rewrite Hf.
  destruct b as [|y b]; [done|]. cbn. f_equal.
  clear. induction b as [|z b IH]; cbn; [done|by f_equal].
Qed.

(** X9: the overview that the loop of [convert_list_to_uk_geog] adds for
    a location is the product of its three frames: every LA pair of the
    location with every MSOA pair and every LSOA pair, in that order, and
    nothing else, so an LSOA is also paired with MSOAs and LAs it does not
    lie in. *)
Theorem overview_pairs_all_with_all (location : string)
  (join_result : list (@join_row geometry)) (acc : @results geometry) :
  all_results_overview_df (accumulate "overview" location join_result acc)
  = all_results_overview_df acc
    ++ (unique_la_codes join_result ≫= λ la,
        unique_msoa_codes join_result ≫= λ msoa,
        OverviewRow location la msoa <$> unique_lsoa_codes join_result).
Proof.
  destruct acc as [a1 a2 a3 a4 a5]. cbn. f_equal. unfold overview.
  destruct join_result as [|j js]; [done|].
  assert (unique_msoa_codes (j :: js) ≠ []) as Hm
    by (unfold unique_msoa_codes; by rewrite drop_duplicates_nil).
  assert (unique_lsoa_codes (j :: js) ≠ []) as Hl
    by (unfold unique_lsoa_codes; by rewrite drop_duplicates_nil).
  rewrite (merge_on_location_same location _ _ Hm).
  rewrite (merge_on_location_same location _ _ Hl).
  generalize (unique_la_codes (j :: js)) (unique_msoa_codes (j :: js))
             (unique_lsoa_codes (j :: js)).
  clear. intros la msoa lsoa.
  rewrite <- list_fmap_compose.
  induction la as [|a la IH]; [done|].
  rewrite !bind_cons, !bind_app, fmap_app, IH. f_equal. clear IH.
  induction msoa as [|m msoa IH]; [done|].
  rewrite fmap_cons, !bind_cons, fmap_app, IH. f_equal. clear IH.
  rewrite <- list_fmap_compose. done.
Qed.

(** *** The frames of a list of locations *)

Lemma accumulate_nil (og location : string) (acc : @results geometry) :
  accumulate og location [] acc = acc.
Proof.
  destruct acc. unfold accumulate. cbn.
  repeat (destruct (String.eqb og _); cbn; rewrite ?app_nil_r); reflexivity.
Qed.

Lemma location_step_run og bf lk n location acc (w : list (event geometry)) elements :
  overpass_query S n (list_query location) = Returned elements →
  ∃ w', location_step S og bf lk n location acc w
        = (Returned (accumulate og location (location_join S bf lk elements) acc), w').
Proof.
  intros Hq. unfold location_step, try_location, try_except, query, log, lift, location_join.
  unfold_M. cbn. fold (list_query location). rewrite Hq.
  destruct (coordinates_frame S elements) as [rows|e]; cbn;
    [destruct (cluster S rows) as [polygons|e]; cbn|];
    rewrite ?accumulate_nil; eexists; reflexivity.
Qed.

Lemma locations_loop_run og bf lk answer (locs : list string) :
  ∀ n acc (w : list (event geometry)),
    (∀ i location, locs !! i = Some location →
       overpass_query S (n + i) (list_query location) = Returned (answer (n + i))) →
    ∃ w', locations_loop S og bf lk n locs acc w
          = (Returned (gather og acc
                         (imap (λ i location,
                                  (location, location_join S bf lk (answer (n + i)))) locs)),
             w').
Proof.
  induction locs as [|location rest IH]; intros n acc w Hq.
  - exists w. reflexivity.
  - pose proof (Hq 0 location eq_refl) as Hel. rewrite Nat.add_0_r in Hel.
    destruct (location_step_run og bf lk n location acc w _ Hel) as (w1 & Hstep).
    destruct (IH (Datatypes.S n)
                 (accumulate og location (location_join S bf lk (answer n)) acc) w1)
      as (w' & Hloop).
    { intros i l Hi. replace (Datatypes.S n + i) with (n + Datatypes.S i) by lia.
      by apply Hq. }
    exists w'. cbn [locations_loop]. unfold mbind, M_bind at 1.
    rewrite Hstep, Hloop. rewrite imap_cons, Nat.add_0_r. cbn. do 3 f_equal.
    apply imap_ext. intros i x _. cbn. do 3 f_equal. lia.
Qed.

Lemma convert_list_to_uk_geog_run og (locs : list string) p1 p2
  (w : list (event geometry)) bf lk answer :
  read_boundary_file S p1 = Returned bf →
  crs_known S crs = true →
  read_lookup_table S p2 = Returned lk →
  (∀ i location, locs !! i = Some location →
     overpass_query S i (list_query location) = Returned (answer i)) →
  ∃ w', convert_list_to_uk_geog S locs p1 p2 og w
        = (Returned (list_dispatch og
                       (gather og no_results
                          (location_joins S ((λ r, (r.1, to_crs S crs r.2)) <$> bf) lk
                             answer locs))),
           w').
Proof.
  intros Hbf Hcrs Hlk Hq.
  unfold convert_list_to_uk_geog, read_file, read_csv, project, log, lift.
  unfold_M. cbn. rewrite Hbf, Hcrs, Hlk.
  match goal with |- context [locations_loop S og ?bf ?lk 0 _ _ ?w1] =>
    destruct (locations_loop_run og bf lk answer locs 0 no_results w1 Hq)
      as (w' & ->) end.
  eexists. reflexivity.
Qed.

Lemma gather_frames (joins : list (string * list join_row)) : ∀ acc : @results geometry,
  all_results_unique_lsoa_codes_df (gather "lsoa" acc joins)
  = all_results_unique_lsoa_codes_df acc
    ++ (joins ≫= λ lj, pair lj.1 <$> unique_lsoa_codes lj.2)
  ∧ all_results_unique_msoa_codes_df (gather "msoa" acc joins)
    = all_results_unique_msoa_codes_df acc
      ++ (joins ≫= λ lj, pair lj.1 <$> unique_msoa_codes lj.2)
  ∧ all_results_unique_la_codes_df (gather "la" acc joins)
    = all_results_unique_la_codes_df acc
      ++ (joins ≫= λ lj, pair lj.1 <$> unique_la_codes lj.2)
  ∧ all_results_join_result (gather "raw" acc joins)
    = all_results_join_result acc ++ (joins ≫= λ lj, pair lj.1 <$> lj.2)
  ∧ all_results_overview_df (gather "overview" acc joins)
    = all_results_overview_df acc
      ++ (joins ≫= λ lj, overview (pair lj.1 <$> unique_la_codes lj.2)
                                  (pair lj.1 <$> unique_msoa_codes lj.2)
                                  (pair lj.1 <$> unique_lsoa_codes lj.2)).
Proof.
  induction joins as [|[loc j] joins IH]; intros acc.
  - cbn. by rewrite !app_nil_r.
  - unfold gather in *. cbn [foldl fst snd].
    destruct (IH (accumulate "lsoa" loc j acc)) as (-> & _).
    destruct (IH (accumulate "msoa" loc j acc)) as (_ & -> & _).
    destruct (IH (accumulate "la" loc j acc)) as (_ & _ & -> & _).
    destruct (IH (accumulate "raw" loc j acc)) as (_ & _ & _ & -> & _).
    destruct (IH (accumulate "overview" loc j acc)) as (_ & _ & _ & _ & ->).
    rewrite !bind_cons, !app_assoc. destruct acc. done.
Qed.

(** X4: when the two files are read and every query returns,
    [convert_list_to_uk_geog] returns for a known option the rows of the
    locations one after the other, in the order of the list, each row with
    its location in [input_location]: the unique pairs of the location's
    join for ['lsoa'], ['msoa'] and ['la'], the join itself for ['raw'], the
    overview of the location for ['overview'].  A location whose processing
    raised adds no row, and a location given twice adds its rows twice. *)
Theorem list_frames_in_list_order (locations_list : list string) (p1 p2 : string)
  (w : list (event geometry)) bf lk (answer : nat → list element) :
  read_boundary_file S p1 = Returned bf →
  crs_known S crs = true →
  read_lookup_table S p2 = Returned lk →
  (∀ i location, locations_list !! i = Some location →
     overpass_query S i (list_query location) = Returned (answer i)) →
  let joins := location_joins S ((λ r, (r.1, to_crs S crs r.2)) <$> bf) lk
                 answer locations_list in
  (convert_list_to_uk_geog S locations_list p1 p2 "lsoa" w).1
  = Returned (Some (LocatedCodes "LSOA21CD" "LSOA21NM"
                      (joins ≫= λ lj, pair lj.1 <$> unique_lsoa_codes lj.2)))
  ∧ (convert_list_to_uk_geog S locations_list p1 p2 "msoa" w).1
    = Returned (Some (LocatedCodes "MSOA21CD" "MSOA21NM"
                        (joins ≫= λ lj, pair lj.1 <$> unique_msoa_codes lj.2)))
  ∧ (convert_list_to_uk_geog S locations_list p1 p2 "la" w).1
    = Returned (Some (LocatedCodes "LAD22CD" "LAD22NM"
                        (joins ≫= λ lj, pair lj.1 <$> unique_la_codes lj.2)))
  ∧ (convert_list_to_uk_geog S locations_list p1 p2 "raw" w).1
    = Returned (Some (LocatedJoin (joins ≫= λ lj, pair lj.1 <$> lj.2)))
  ∧ (convert_list_to_uk_geog S locations_list p1 p2 "overview" w).1
    = Returned (Some (LocatedOverview
                        (joins ≫= λ lj, overview (pair lj.1 <$> unique_la_codes lj.2)
                                                 (pair lj.1 <$> unique_msoa_codes lj.2)
                                                 (pair lj.1 <$> unique_lsoa_codes lj.2)))).
Proof.
  intros Hbf Hcrs Hlk Hq joins.
  destruct (gather_frames joins no_results) as (Hlsoa & Hmsoa & Hla & Hraw & Hoverview).
  repeat split.
  - destruct (convert_list_to_uk_geog_run "lsoa" locations_list p1 p2 w bf lk answer
                Hbf Hcrs Hlk Hq) as [w' ->].
    cbn. fold joins. by rewrite Hlsoa.
  - destruct (convert_list_to_uk_geog_run "msoa" locations_list p1 p2 w bf lk answer
                Hbf Hcrs Hlk Hq) as [w' ->].
    cbn. fold joins. by rewrite Hmsoa.
  - destruct (convert_list_to_uk_geog_run "la" locations_list p1 p2 w bf lk answer
                Hbf Hcrs Hlk Hq) as [w' ->].
    cbn. fold joins. by rewrite Hla.
  - destruct (convert_list_to_uk_geog_run "raw" locations_list p1 p2 w bf lk answer
                Hbf Hcrs Hlk Hq) as [w' ->].
    cbn. fold joins. by rewrite Hraw.
  - destruct (convert_list_to_uk_geog_run "overview" locations_list p1 p2 w bf lk answer
                Hbf Hcrs Hlk Hq) as [w' ->].
    cbn. fold joins. by rewrite Hoverview.
Qed.

Lemma pairs_of_location_join (f : join_row → pair_row) bf lk elements rows polygons :
  (∀ j p, f (JoinRow (jr_left j) (jr_index_right j) p) = f j) →
  coordinates_frame S elements = Returned rows →
  cluster S rows = Returned polygons →
  f <$> location_join S ((λ r, (r.1, to_crs S crs r.2)) <$> bf) lk elements
  = f <$> sjoin S (projected S (merge bf lk)) polygons.
Proof.
  intros Hf Hframe Hcluster. unfold location_join. rewrite Hframe, Hcluster.
  rewrite merge_project, sjoin_drop_counts, <- list_fmap_compose.
  apply list_fmap_ext. intros i j _. apply Hf.
Qed.

(** X5: for one location the two UK functions agree: when Overpass
    answers the query of the list function as it answers the query of the
    single function, [convert_list_to_uk_geog] on the list of that one
    location returns, for ['lsoa'], ['msoa'] and ['la'], the pairs that
    [convert_string_to_uk_geog] returns, in the same order, each with the
    location added. *)
Theorem list_of_one_agrees (location p1 p2 : string) (w : list (event geometry))
  elements rows polygons bf lk :
  overpass_query S 0 (boundary_query "    " "United Kingdom" location) = Returned elements →
  overpass_query S 0 (list_query location) = Returned elements →
  coordinates_frame S elements = Returned rows →
  cluster S rows = Returned polygons →
  read_boundary_file S p1 = Returned bf →
  read_lookup_table S p2 = Returned lk →
  ∃ lsoa msoa la,
    ((convert_string_to_uk_geog S location p1 p2 "lsoa" w).1
     = Returned (Some (CodeFrame "LSOA21CD" "LSOA21NM" lsoa))
     ∧ (convert_list_to_uk_geog S [location] p1 p2 "lsoa" w).1
       = Returned (Some (LocatedCodes "LSOA21CD" "LSOA21NM" (pair location <$> lsoa))))
    ∧ ((convert_string_to_uk_geog S location p1 p2 "msoa" w).1
       = Returned (Some (CodeFrame "MSOA21CD" "MSOA21NM" msoa))
       ∧ (convert_list_to_uk_geog S [location] p1 p2 "msoa" w).1
         = Returned (Some (LocatedCodes "MSOA21CD" "MSOA21NM" (pair location <$> msoa))))
    ∧ ((convert_string_to_uk_geog S location p1 p2 "la" w).1
       = Returned (Some (CodeFrame "LAD22CD" "LAD22NM" la))
       ∧ (convert_list_to_uk_geog S [location] p1 p2 "la" w).1
         = Returned (Some (LocatedCodes "LAD22CD" "LAD22NM" (pair location <$> la)))).
Proof.
  intros Hq Hql Hframe Hcluster Hbf Hlk.
  destruct (cluster_Returned _ _ Hcluster) as [Hcrs _].
  destruct (uk_geog_join_run location p1 p2 w _ _ _ _ _ Hq Hframe Hcluster Hbf Hlk)
    as [w' Hjoin].
  destruct (uk_geog_codes_run _ _ _ _ _ _ Hjoin) as (Hlsoa & Hmsoa & Hla).
  assert (∀ i l, [location] !! i = Some l →
            overpass_query S i (list_query l) = Returned ((λ _, elements) i)) as Hqs.
  { intros [|i] l Hi; [|done]. by injection Hi as <-. }
  destruct (gather_frames
              (location_joins S ((λ r, (r.1, to_crs S crs r.2)) <$> bf) lk
                 (λ _, elements) [location]) no_results) as (Gl & Gm & Ga & _).
  do 3 eexists. split; [|split]; (split; [by rewrite ?Hlsoa, ?Hmsoa, ?Hla|]).
  - destruct (convert_list_to_uk_geog_run "lsoa" [location] p1 p2 w bf lk _
                Hbf Hcrs Hlk Hqs) as [w2 ->].
    cbn [fst list_dispatch String.eqb Ascii.eqb Bool.eqb]. rewrite Gl. cbn.
    rewrite app_nil_r. unfold unique_lsoa_codes.
    by rewrite (pairs_of_location_join lsoa_pair _ _ _ _ _ (λ _ _, eq_refl) Hframe Hcluster).
  - destruct (convert_list_to_uk_geog_run "msoa" [location] p1 p2 w bf lk _
                Hbf Hcrs Hlk Hqs) as [w2 ->].
    cbn [fst list_dispatch String.eqb Ascii.eqb Bool.eqb]. rewrite Gm. cbn.
    rewrite app_nil_r. unfold unique_msoa_codes.
    by rewrite (pairs_of_location_join msoa_pair _ _ _ _ _ (λ _ _, eq_refl) Hframe Hcluster).
  - destruct (convert_list_to_uk_geog_run "la" [location] p1 p2 w bf lk _
                Hbf Hcrs Hlk Hqs) as [w2 ->].
    cbn [fst list_dispatch String.eqb Ascii.eqb Bool.eqb]. rewrite Ga. cbn.
    rewrite app_nil_r. unfold unique_la_codes.
    by rewrite (pairs_of_location_join la_pair _ _ _ _ _ (λ _ _, eq_refl) Hframe Hcluster).
Qed.

(** X16: a boundary file that cannot be read stops
    [convert_list_to_uk_geog] before its first query, whatever the list,
    while [convert_string_to_uk_geog] has by then sent its query and
    clustered the answer: there the same exception leaves the function after
    the query. *)
Theorem unreadable_boundary_file (locations_list : list string)
  (location p1 p2 output_geog : string) (w : list (event geometry))
  e elements rows polygons :
  read_boundary_file S p1 = Raised e →
  overpass_query S 0 (boundary_query "    " "United Kingdom" location) = Returned elements →
  coordinates_frame S elements = Returned rows →
  cluster S rows = Returned polygons →
  (∃ w', convert_list_to_uk_geog S locations_list p1 p2 output_geog w = (Raised e, w')
     ∧ queries w' = queries w)
  ∧ (∃ w', convert_string_to_uk_geog S location p1 p2 output_geog w = (Raised e, w')
       ∧ queries w'
         = queries w ++ [boundary_query "    " "United Kingdom" location]).
Proof.
  intros Hbf Hq Hframe Hcluster. split.
  - unfold convert_list_to_uk_geog, read_file, log, lift. unfold_M. cbn. rewrite Hbf.
    eexists. split; [reflexivity|]. unfold queries. rewrite !omap_app. cbn.
    by rewrite !app_nil_r.
  - unfold convert_string_to_uk_geog, uk_geog_join, query, read_file, log, lift.
    unfold_M. cbn. rewrite Hq, Hframe, Hcluster. cbn. rewrite Hbf.
    eexists. split; [reflexivity|]. unfold queries. rewrite !omap_app. cbn.
    by rewrite !app_nil_r.
Qed.

(** *** Every step of a run, in order *)

Lemma uk_geog_join_trace (location p1 p2 : string) (w : list (event geometry))
  elements rows polygons bf lk :
  overpass_query S 0 (boundary_query "    " "United Kingdom" location) = Returned elements →
  coordinates_frame S elements = Returned rows →
  cluster S rows = Returned polygons →
  read_boundary_file S p1 = Returned bf →
  read_lookup_table S p2 = Returned lk →
  uk_geog_join S location p1 p2 w
  = (Returned (sjoin S (projected S (merge bf lk)) polygons),
     w ++ uk_geog_events location p1 p2 polygons).
Proof.
  intros Hq Hframe Hcluster Hbf Hlk.
  destruct (cluster_Returned _ _ Hcluster) as [Hcrs _].
  unfold uk_geog_join, query, read_file, read_csv, project, log, lift.
  unfold_M. cbn. rewrite Hq, Hframe, Hcluster. cbn. rewrite Hbf, Hlk, Hcrs. cbn.
  unfold uk_geog_events. by rewrite <- !app_assoc.
Qed.

Lemma location_step_trace og bf lk n location acc (w : list (event geometry)) elements :
  overpass_query S n (list_query location) = Returned elements →
  location_step S og bf lk n location acc w
  = (Returned (accumulate og location (location_join S bf lk elements) acc),
     w ++ location_events S location elements).
Proof.
  intros Hq.
  unfold location_step, try_location, try_except, query, log, lift, location_join,
    location_events.
  unfold_M. cbn. fold (list_query location). rewrite Hq.
  destruct (coordinates_frame S elements) as [rows|e]; cbn;
    [destruct (cluster S rows) as [polygons|e]; cbn|];
    rewrite ?accumulate_nil, <- ?app_assoc; reflexivity.
Qed.

Lemma locations_loop_trace og bf lk answer (locs : list string) :
  ∀ n acc (w : list (event geometry)),
    (∀ i location, locs !! i = Some location →
       overpass_query S (n + i) (list_query location) = Returned (answer (n + i))) →
    locations_loop S og bf lk n locs acc w
    = (Returned (gather og acc
                   (imap (λ i location,
                            (location, location_join S bf lk (answer (n + i)))) locs)),
       w ++ mjoin (imap (λ i location, location_events S location (answer (n + i))) locs)).
Proof.
  induction locs as [|location rest IH]; intros n acc w Hq.
  - cbn. by rewrite app_nil_r.
  - pose proof (Hq 0 location eq_refl) as Hel. rewrite Nat.add_0_r in Hel.
    cbn [locations_loop]. unfold mbind, M_bind at 1.
    rewrite (location_step_trace og bf lk n location acc w _ Hel).
    rewrite (IH (Datatypes.S n)).
    2:{ intros i l Hi. replace (Datatypes.S n + i) with (n + Datatypes.S i) by lia.
        by apply Hq. }
    rewrite !imap_cons, Nat.add_0_r.
    change (mjoin (?x :: ?l)) with (x ++ mjoin l).
    unfold gather. cbn [foldl fst snd]. rewrite <- app_assoc.
    f_equal; [do 2 f_equal|do 3 f_equal];
      apply imap_ext; intros i x _; cbn; do 3 f_equal; lia.
Qed.

Lemma convert_list_to_uk_geog_trace og (locs : list string) p1 p2
  (w : list (event geometry)) bf lk answer :
  read_boundary_file S p1 = Returned bf →
  crs_known S crs = true →
  read_lookup_table S p2 = Returned lk →
  (∀ i location, locs !! i = Some location →
     overpass_query S i (list_query location) = Returned (answer i)) →
  convert_list_to_uk_geog S locs p1 p2 og w
  = (Returned (list_dispatch og
                 (gather og no_results
                    (location_joins S ((λ r, (r.1, to_crs S crs r.2)) <$> bf) lk
                       answer locs))),
     w ++ list_events S p1 p2 answer locs).
Proof.
  intros Hbf Hcrs Hlk Hq.
  unfold convert_list_to_uk_geog, read_file, read_csv, project, log, lift.
  unfold_M. cbn. rewrite Hbf, Hcrs, Hlk.
  match goal with |- context [locations_loop S og ?bf ?lk 0 _ _ ?w1] =>
    rewrite (locations_loop_trace og bf lk answer locs 0 no_results w1 Hq) end.
  unfold list_events, location_joins. by rewrite <- !app_assoc.
Qed.

(** C8: with an [output_geog] that is none of the five options, both UK
    functions still do all of their work and then return [None].  Whatever
    the services answer, the run does what the run with ['raw'] does, the
    same queries, reads and prints in the same order, and raises only where
    that run raises.  When the two files are read and the queries return,
    the run is spelled out: [convert_string_to_uk_geog] sends its query,
    reads the boundary file and the lookup table, prints the polygons and
    announces the join, exactly the steps after which the run with ['raw']
    returns the spatial join, and returns [None];
    [convert_list_to_uk_geog] reads the two files, then queries every
    location of the list in order, each query followed by the prints of
    that location (or by the line that it was skipped), exactly the steps
    after which the run with ['raw'] returns the joins of the locations,
    and returns [None]. *)
Theorem unknown_option_returns_None (output_geog p1 p2 : string)
  (w : list (event geometry)) :
  output_geog ≠ "lsoa" → output_geog ≠ "msoa" → output_geog ≠ "la" →
  output_geog ≠ "overview" → output_geog ≠ "raw" →
  (∀ location locations_list,
     convert_string_to_uk_geog S location p1 p2 output_geog w
     = (match (convert_string_to_uk_geog S location p1 p2 "raw" w).1 with
        | Returned _ => Returned None
        | Raised e => Raised e
        end,
        (convert_string_to_uk_geog S location p1 p2 "raw" w).2)
     ∧ convert_list_to_uk_geog S locations_list p1 p2 output_geog w
       = (match (convert_list_to_uk_geog S locations_list p1 p2 "raw" w).1 with
          | Returned _ => Returned None
          | Raised e => Raised e
          end,
          (convert_list_to_uk_geog S locations_list p1 p2 "raw" w).2))
  ∧ (∀ bf lk location elements rows polygons,
       read_boundary_file S p1 = Returned bf →
       read_lookup_table S p2 = Returned lk →
       overpass_query S 0 (boundary_query "    " "United Kingdom" location)
       = Returned elements →
       coordinates_frame S elements = Returned rows →
       cluster S rows = Returned polygons →
       convert_string_to_uk_geog S location p1 p2 output_geog w
       = (Returned None, w ++ uk_geog_events location p1 p2 polygons)
       ∧ convert_string_to_uk_geog S location p1 p2 "raw" w
         = (Returned (Some (JoinFrame (sjoin S (projected S (merge bf lk)) polygons))),
            w ++ uk_geog_events location p1 p2 polygons))
  ∧ (∀ bf lk locations_list answer,
       read_boundary_file S p1 = Returned bf →
       crs_known S crs = true →
       read_lookup_table S p2 = Returned lk →
       (∀ i location, locations_list !! i = Some location →
          overpass_query S i (list_query location) = Returned (answer i)) →
       convert_list_to_uk_geog S locations_list p1 p2 output_geog w
       = (Returned None, w ++ list_events S p1 p2 answer locations_list)
       ∧ convert_list_to_uk_geog S locations_list p1 p2 "raw" w
         = (Returned
              (Some (LocatedJoin
                       (location_joins S ((λ r, (r.1, to_crs S crs r.2)) <$> bf) lk
                          answer locations_list
                        ≫= λ lj, pair lj.1 <$> lj.2))),
            w ++ list_events S p1 p2 answer locations_list)).
Proof.
  intros H1 H2 H3 H4 H5. split; [|split].
  - intros location locations_list.
    exact (unknown_option_as_raw output_geog location p1 p2 locations_list w
             H1 H2 H3 H4 H5).
  - intros bf lk location elements rows polygons Hbf Hlk Hq Hframe Hcluster.
    apply String.eqb_neq in H1, H2, H3, H4, H5.
    unfold convert_string_to_uk_geog. unfold mbind, M_bind at 1 2.
    rewrite (uk_geog_join_trace location p1 p2 w _ _ _ _ _ Hq Hframe Hcluster Hbf Hlk).
    unfold uk_geog_dispatch. by rewrite H1, H2, H3, H4, H5.
  - intros bf lk locations_list answer Hbf Hcrs Hlk Hq.
    rewrite !(convert_list_to_uk_geog_trace _ locations_list p1 p2 w bf lk answer
                Hbf Hcrs Hlk Hq).
    destruct (gather_frames
                (location_joins S ((λ r, (r.1, to_crs S crs r.2)) <$> bf) lk
                   answer locations_list) no_results) as (_ & _ & _ & Hraw & _).
    apply String.eqb_neq in H1, H2, H3, H4, H5.
    unfold list_dispatch. rewrite H1, H2, H3, H4, H5. cbn.
    split; [reflexivity|]. by rewrite Hraw.
Qed.

End Facts.

(** *** The facts above on the stand-in services *)

Lemma no_element_raises_atlantis :
  convert_string_to_uk_geog UkGeogExamples.stub "Atlantis" "lsoa.geojson" "lookup.csv"
    "lsoa" []
  = (Raised (Exn "'type'"), [EvQuery (boundary_query "    " "United Kingdom" "Atlantis")]).
Proof.
  exact (proj2 (no_element_raises UkGeogExamples.stub "United Kingdom" "Atlantis"
                  "lsoa.geojson" "lookup.csv" "lsoa" true [] [] eq_refl) eq_refl).
Defined.

Lemma nodes_clustered_by_transposed_geohash_camden :
  (coordinates_frame UkGeogExamples.stub UkGeogExamples.camden
   = Returned UkGeogExamples.camden_rows
   ∧ cluster UkGeogExamples.stub UkGeogExamples.camden_rows
     = Returned UkGeogExamples.camden_polygons)
  ∧ (pg_geohash <$> UkGeogExamples.camden_polygons = ["mpu"; "mpw"]
     ∧ NoDup (pg_geohash <$> UkGeogExamples.camden_polygons)
     ∧ (convert_string_to_boundary UkGeogExamples.stub "United Kingdom" "Camden" true []).1
       = Returned (Polygons UkGeogExamples.camden_polygons))
  ∧ (Geolib.encode 51.5 (-0.125) 3 = "gcp" ∧ Geolib.encode (-0.125) 51.5 3 = "mpu"
     ∧ Geolib.encode 53.5 (-2.25) 3 = "gcw" ∧ Geolib.encode (-2.25) 53.5 3 = "mpw")
  ∧ (Geolib.encode 10 100 3 = "w1z" ∧ Geolib.encode 10 170 3 = "xcb"
     ∧ ∃ rows, coordinates_frame UkGeogExamples.stub UkGeogExamples.far_east = Returned rows
         ∧ cluster UkGeogExamples.stub rows
           = Returned [PolygonRow "upz" [(100%float, 10%float); (170%float, 10%float)]
                                  (Some "node") (Some 2)]).
Proof.
  assert (coordinates_frame UkGeogExamples.stub UkGeogExamples.camden
          = Returned UkGeogExamples.camden_rows) as Hframe by reflexivity.
  assert (cluster UkGeogExamples.stub UkGeogExamples.camden_rows
          = Returned UkGeogExamples.camden_polygons) as Hcluster by reflexivity.
  destruct (nodes_clustered_by_transposed_geohash UkGeogExamples.stub _ _ _
              (λ _ _, eq_refl) Hframe Hcluster)
    as (_ & Hnodup & _ & _ & Hboundary & _).
  split; [by split|]. split; [|split].
  - split; [reflexivity|]. split; [exact Hnodup|]. by apply Hboundary.
  - repeat split; reflexivity.
  - split; [reflexivity|]. split; [reflexivity|]. eexists. split; reflexivity.
Defined.

Lemma uk_geog_returns_by_option_camden :
  (convert_string_to_uk_geog UkGeogExamples.stub "Camden" "lsoa.geojson" "lookup.csv" "lsoa" []).1
  = Returned (Some (CodeFrame "LSOA21CD" "LSOA21NM"
                      [(Some "E01000001", Some "Camden 001A");
                       (Some "E01000002", Some "Camden 001B")]))
  ∧ (convert_string_to_uk_geog UkGeogExamples.stub "Camden" "lsoa.geojson" "lookup.csv"
       "overview" []).1
    = Raised (Exn "If using all scalar values, you must pass an index").
Proof.
  destruct (uk_geog_join UkGeogExamples.stub "Camden" "lsoa.geojson" "lookup.csv" [])
    as [[join_result|e] w'] eqn:Hjoin; [|vm_compute in Hjoin; discriminate].
  destruct (uk_geog_returns_by_option UkGeogExamples.stub _ _ _ _ _ _ Hjoin)
    as (Hlsoa & _ & _ & _ & Hoverview & _).
  vm_compute in Hjoin. injection Hjoin as <- <-.
  split.
  - rewrite Hlsoa. reflexivity.
  - destruct Hoverview as [Hnone|[e He]]; [vm_compute in Hnone; discriminate|].
    reflexivity.
Defined.

Lemma unknown_option_returns_None_postcode :
  convert_string_to_uk_geog UkGeogExamples.stub "Camden" "lsoa.geojson" "lookup.csv"
    "postcode" []
  = (Returned None,
     [EvQuery (boundary_query "    " "United Kingdom" "Camden");
      EvPrint "Reading in LSOA boundary file... This will take a while...";
      EvReadFile "lsoa.geojson";
      EvReadCsv "lookup.csv";
      EvPrint "There are 2 polygons in the input location.";
      EvPrintPolygons true UkGeogExamples.camden_polygons;
      EvPrint "Performing spatial join..."])
  ∧ convert_list_to_uk_geog UkGeogExamples.stub ["Camden"; "Atlantis"] "lsoa.geojson"
      "lookup.csv" "postcode" []
    = (Returned None,
       [EvPrint "Reading in LSOA boundary file... This will take a while...";
        EvReadFile "lsoa.geojson";
        EvReadCsv "lookup.csv";
        EvQuery (list_query "Camden");
        EvPrint "There are 2 polygons in the input location  Camden";
        EvPrintPolygons false (drop_counts <$> UkGeogExamples.camden_polygons);
        EvPrint "Performing spatial join...";
        EvQuery (list_query "Atlantis");
        EvPrint "Error. Likely no polygons found for Atlantis"]).
Proof.
  destruct (unknown_option_returns_None UkGeogExamples.stub "postcode"
              "lsoa.geojson" "lookup.csv" []
              ltac:(discriminate) ltac:(discriminate) ltac:(discriminate)
              ltac:(discriminate) ltac:(discriminate))
    as (_ & Hsingle & Hlist).
  split.
  - exact (proj1 (Hsingle UkGeogExamples.camden_lsoas UkGeogExamples.camden_lookup
                    "Camden" UkGeogExamples.camden UkGeogExamples.camden_rows
                    UkGeogExamples.camden_polygons
                    eq_refl eq_refl eq_refl eq_refl eq_refl)).
  - refine (proj1 (Hlist UkGeogExamples.camden_lsoas UkGeogExamples.camden_lookup
                     ["Camden"; "Atlantis"]
                     (λ i, if Nat.eqb i 0 then UkGeogExamples.camden else [])
                     eq_refl eq_refl eq_refl _)).
    intros i location Hi. destruct i as [|[|i]]; simplify_eq/=; reflexivity.
Defined.

(** C3, at a list whose second location makes the Overpass query raise: the
    exception leaves the function, and the third location is never queried. *)
Lemma query_failure_ends_run :
  (convert_list_to_uk_geog UkGeogExamples.stub ["Camden"; "Sark"; "Camden"]
     "lsoa.geojson" "lookup.csv" "la" []).1
  = Raised (Exn "The requested data could not be downloaded.")
  ∧ queries (convert_list_to_uk_geog UkGeogExamples.stub ["Camden"; "Sark"; "Camden"]
               "lsoa.geojson" "lookup.csv" "la" []).2
    = [list_query "Camden"; list_query "Sark"].
Proof. split; reflexivity. Qed.

Lemma failed_location_is_skipped_atlantis :
  (∃ v w', convert_list_to_uk_geog UkGeogExamples.stub ["Camden"; "Atlantis"; "Camden"]
             "lsoa.geojson" "lookup.csv" "la" [] = (Returned v, w')
     ∧ queries w' = [list_query "Camden"; list_query "Atlantis"; list_query "Camden"])
  ∧ location_step UkGeogExamples.stub "la" [] [] 1 "Atlantis" no_results []
    = (Returned no_results,
       [EvQuery (list_query "Atlantis");
        EvPrint "Error. Likely no polygons found for Atlantis"]).
Proof.
  destruct (failed_location_is_skipped UkGeogExamples.stub "la" "lsoa.geojson" "lookup.csv"
              ["Camden"; "Atlantis"; "Camden"] []
              [("E01000001", [((-0.125)%float, 51.5%float)]);
               ("E01000002", [((-0.25)%float, 51.75%float)]);
               ("E01000003", [(1%float, 1%float)])]
              [LookupRow "E01000001" "Camden 001A" "E02000001" "Camden 001"
                         "E09000007" "Camden";
               LookupRow "E01000002" "Camden 001B" "E02000001" "Camden 001"
                         "E09000007" "Camden"])
    as [Hrun Hskip]; try reflexivity.
  { intros i location Hi.
    destruct i as [|[|[|i]]]; simplify_eq/=; eexists; reflexivity. }
  split; [exact Hrun|].
  exact (Hskip 1 "Atlantis" [] [] no_results [] (Exn "'type'") [] _ eq_refl eq_refl).
Defined.

Lemma every_node_counted_once_camden :
  UkGeogExamples.camden_rows = untagged_nodes UkGeogExamples.stub UkGeogExamples.camden
  ∧ sum_list (default 0 ∘ pg_id <$> UkGeogExamples.camden_polygons) = 3.
Proof.
  destruct (every_node_counted_once UkGeogExamples.stub UkGeogExamples.camden
              UkGeogExamples.camden_rows UkGeogExamples.camden_polygons eq_refl eq_refl)
    as (Hrows & Hsum & _).
  split; [exact Hrows|exact Hsum].
Defined.

Lemma lsoa_listed_iff_intersects_camden :
  ∃ w' listed,
    convert_string_to_uk_geog UkGeogExamples.stub "Camden" "lsoa.geojson" "lookup.csv"
      "lsoa" []
    = (Returned (Some (CodeFrame "LSOA21CD" "LSOA21NM" listed)), w')
    ∧ (∃ name, (Some "E01000001", name) ∈ listed)
    ∧ ¬ (∃ name, (Some "E01000003", name) ∈ listed).
Proof.
  destruct (lsoa_listed_iff_intersects UkGeogExamples.stub "Camden" "lsoa.geojson"
              "lookup.csv" [] UkGeogExamples.camden UkGeogExamples.camden_rows
              UkGeogExamples.camden_polygons UkGeogExamples.camden_lsoas UkGeogExamples.camden_lookup
              eq_refl eq_refl eq_refl eq_refl eq_refl) as (w' & listed & Hrun & Hiff).
  exists w', listed. split; [exact Hrun|]. split.
  - apply Hiff. exists [((-0.125)%float, 51.5%float)].
    exists (PolygonRow "mpu" [((-0.125)%float, 51.5%float); ((-0.25)%float, 51.75%float)]
                       (Some "node") (Some 2)).
    split; [|split]; [| |reflexivity]; apply list_elem_of_In; cbn; tauto.
  - intros Hin. apply Hiff in Hin as (g & p & Hg & Hp & Hint).
    apply list_elem_of_In in Hg, Hp. cbn in Hg, Hp.
    destruct Hg as [Hg|[Hg|[Hg|[]]]]; try discriminate Hg. injection Hg as <-.
    destruct Hp as [<-|[<-|[]]]; vm_compute in Hint; discriminate.
Defined.

Lemma unknown_code_gives_nan_rows_camden :
  ∃ w' lsoa msoa la,
    convert_string_to_uk_geog UkGeogExamples.stub_short_lookup "Camden" "lsoa.geojson" "lookup.csv"
      "lsoa" []
    = (Returned (Some (CodeFrame "LSOA21CD" "LSOA21NM" lsoa)), w')
    ∧ convert_string_to_uk_geog UkGeogExamples.stub_short_lookup "Camden" "lsoa.geojson" "lookup.csv"
        "msoa" []
      = (Returned (Some (CodeFrame "MSOA21CD" "MSOA21NM" msoa)), w')
    ∧ convert_string_to_uk_geog UkGeogExamples.stub_short_lookup "Camden" "lsoa.geojson" "lookup.csv"
        "la" []
      = (Returned (Some (CodeFrame "LAD22CD" "LAD22NM" la)), w')
    ∧ (Some "E01000002", None) ∈ lsoa ∧ (None, None) ∈ msoa ∧ (None, None) ∈ la.
Proof.
  apply (unknown_code_gives_nan_rows UkGeogExamples.stub_short_lookup "Camden" "lsoa.geojson"
           "lookup.csv" [] UkGeogExamples.camden UkGeogExamples.camden_rows
           UkGeogExamples.camden_polygons UkGeogExamples.camden_lsoas
           [LookupRow "E01000001" "Camden 001A" "E02000001" "Camden 001"
                      "E09000007" "Camden"]
           "E01000002" [((-0.25)%float, 51.75%float)]
           (PolygonRow "mpu" [((-0.125)%float, 51.5%float); ((-0.25)%float, 51.75%float)]
                       (Some "node") (Some 2)));
    try reflexivity; try (apply list_elem_of_In; cbn; tauto).
  intros r Hr%list_elem_of_In. cbn in Hr. destruct Hr as [<-|[]]. discriminate.
Defined.

Lemma list_frames_in_list_order_camden :
  (convert_list_to_uk_geog UkGeogExamples.stub ["Camden"; "Atlantis"; "Camden"]
     "lsoa.geojson" "lookup.csv" "la" []).1
  = Returned (Some (LocatedCodes "LAD22CD" "LAD22NM"
                      [("Camden", (Some "E09000007", Some "Camden"));
                       ("Camden", (Some "E09000007", Some "Camden"))])).
Proof.
  destruct (list_frames_in_list_order UkGeogExamples.stub ["Camden"; "Atlantis"; "Camden"]
              "lsoa.geojson" "lookup.csv" [] UkGeogExamples.camden_lsoas UkGeogExamples.camden_lookup
              (λ i, if Nat.eqb i 1 then [] else UkGeogExamples.camden))
    as (_ & _ & Hla & _); [reflexivity..| |exact Hla].
  intros i location Hi. destruct i as [|[|[|i]]]; simplify_eq/=; reflexivity.
Defined.

Lemma list_of_one_agrees_camden :
  ∃ lsoa,
    (convert_string_to_uk_geog UkGeogExamples.stub "Camden" "lsoa.geojson" "lookup.csv"
       "lsoa" []).1
    = Returned (Some (CodeFrame "LSOA21CD" "LSOA21NM" lsoa))
    ∧ (convert_list_to_uk_geog UkGeogExamples.stub ["Camden"] "lsoa.geojson" "lookup.csv"
         "lsoa" []).1
      = Returned (Some (LocatedCodes "LSOA21CD" "LSOA21NM" (pair "Camden" <$> lsoa))).
Proof.
  destruct (list_of_one_agrees UkGeogExamples.stub "Camden" "lsoa.geojson" "lookup.csv" []
              UkGeogExamples.camden UkGeogExamples.camden_rows
              UkGeogExamples.camden_polygons UkGeogExamples.camden_lsoas UkGeogExamples.camden_lookup
              eq_refl eq_refl eq_refl eq_refl eq_refl eq_refl)
    as (lsoa & msoa & la & Hlsoa & _).
  exists lsoa. exact Hlsoa.
Defined.

Lemma unreadable_boundary_file_camden :
  (∃ w', convert_list_to_uk_geog UkGeogExamples.stub ["Camden"; "Atlantis"]
           "nowhere.geojson" "lookup.csv" "lsoa" [] = (Raised (Exn "No such file"), w')
     ∧ queries w' = [])
  ∧ (∃ w', convert_string_to_uk_geog UkGeogExamples.stub "Camden"
             "nowhere.geojson" "lookup.csv" "lsoa" [] = (Raised (Exn "No such file"), w')
       ∧ queries w' = [boundary_query "    " "United Kingdom" "Camden"]).
Proof.
  exact (unreadable_boundary_file UkGeogExamples.stub ["Camden"; "Atlantis"] "Camden"
           "nowhere.geojson" "lookup.csv" "lsoa" [] (Exn "No such file")
           UkGeogExamples.camden UkGeogExamples.camden_rows UkGeogExamples.camden_polygons
           eq_refl eq_refl eq_refl eq_refl).
Defined.

End UkGeogFacts.
